(** * Cloud Native PostgreSQL: the reconciliation loop and the WAL archiver

    A shallow embedding of
    - [controllers/cluster_controller.go]: [Reconcile],
      [SatisfiedExpectations] and [ReconcilePods];
    - [internal/cmd/manager/walarchive/cmd.go]: [run] and
      [barmanCloudWalArchiveOptions];
    followed by the properties of the reconciliation loop that the
    specification states about them.

    Go functions that talk to the API server are embedded as functions
    into a writer monad: the value is what the Go function returns, the
    log is the ordered list of the collaborators it called and of the
    messages it logged. Collaborators whose bodies live in other
    packages are fields of a record, so every theorem holds whatever
    they do. *)

From Stdlib Require Import ZArith NArith Bool List String Lia.
From stdpp Require Import base option list strings gmap pretty.

Open Scope Z_scope.

(** ** Go values shared by both packages *)

Module Go.

(** [metav1.StatusReason], as far as the controller tells reasons
    apart. *)
Inductive StatusReason :=
| StatusReasonUnknown
| StatusReasonNotFound
| StatusReasonConflict
| StatusReasonOther (reason : string).

(** Go [error] values: an API status error, a plain message, and
    [fmt.Errorf("<message>: %w", cause)]. A nil [error] is [None] of
    [option error]. *)
Inductive error :=
| StatusError (reason : StatusReason) (message : string)
| ErrorString (message : string)
| WrapError (message : string) (cause : error).

(** [apierrs.ReasonForError]: the reason of the first API status in
    the chain of wrapped errors. *)
Fixpoint ReasonForError (err : error) : StatusReason :=
  match err with
  | StatusError reason _ => reason
  | ErrorString _ => StatusReasonUnknown
  | WrapError _ cause => ReasonForError cause
  end.

Definition IsNotFound (err : error) : bool :=
  match ReasonForError err with StatusReasonNotFound => true | _ => false end.

Definition IsConflict (err : error) : bool :=
  match ReasonForError err with StatusReasonConflict => true | _ => false end.

(** [err.Error()] *)
Fixpoint Error (err : error) : string :=
  match err with
  | StatusError _ message => message
  | ErrorString message => message
  | WrapError message cause => message +:+ ": " +:+ Error cause
  end.

(** What a call that returns [(T, error)] yields: the value when the
    error is nil. *)
Inductive result (T : Type) :=
| Ok (value : T)
| Err (err : error).
Arguments Ok {T} value.
Arguments Err {T} err.

#[export] Instance StatusReason_eq_dec : EqDecision StatusReason.
Proof. solve_decision. Defined.

#[export] Instance error_eq_dec : EqDecision error.
Proof. solve_decision. Defined.

End Go.
Export Go.

(** ** The writer monad of calls and log lines *)

Module Trace.

Definition M (E A : Type) : Type := (list E * A)%type.

Definition ret {E A} (a : A) : M E A := ([], a).

Definition bind {E A B} (m : M E A) (k : A -> M E B) : M E B :=
  let '(l1, a) := m in
  let '(l2, b) := k a in
  (l1 ++ l2, b).

(** One event, with the value the collaborator answered. *)
Definition emit {E A} (e : E) (a : A) : M E A := ([e], a).

Definition events {E A} (m : M E A) : list E := fst m.
Definition value {E A} (m : M E A) : A := snd m.

End Trace.
Export Trace.

#[export] Instance writer_ret {E} : MRet (M E) := fun A a => ret a.
#[export] Instance writer_bind {E} : MBind (M E) := fun A B k m => bind m k.

(** ** The expectation tracker *)

Module Expectations.

(** Modelled from the spec: package [pkg/expectations] is not among the
    sources. The spec's data model has, per owner key, a count of
    pending creates and of pending deletes, never negative, and the time
    of the last [Expect*] call; a record older than the time-to-live
    counts as zero. *)
Record Expectation := {
  creates : nat;
  deletes : nat;
  stamp : Z
}.

(** Modelled from the spec: one tracker per resource kind, with its
    fixed time-to-live. *)
Record ControllerExpectations := {
  ttl : Z;
  store : gmap string Expectation
}.

Definition NewControllerExpectations (horizon : Z) : ControllerExpectations :=
  {| ttl := horizon; store := ∅ |}.

(** Modelled from the spec: "expired past a fixed time-to-live since
    the last Expect* call". *)
Definition isExpired (horizon now : Z) (e : Expectation) : bool :=
  horizon <? now - stamp e.

(** Modelled from the spec: the counters in force at [now]; the
    time-out "forces expiration to zero". *)
Definition pending (c : ControllerExpectations) (key : string) (now : Z)
  : nat * nat :=
  match store c !! key with
  | None => (0, 0)%nat
  | Some e =>
      if isExpired (ttl c) now e then (0, 0)%nat else (creates e, deletes e)
  end.

(** Modelled from the spec: "[Expect*] records that N actions were just
    issued". *)
Definition ExpectCreations (c : ControllerExpectations) (key : string)
  (n : nat) (now : Z) : ControllerExpectations :=
  let '(adds, dels) := pending c key now in
  {| ttl := ttl c;
     store := <[key := {| creates := adds + n; deletes := dels; stamp := now |}]>
                (store c) |}.

Definition ExpectDeletions (c : ControllerExpectations) (key : string)
  (n : nat) (now : Z) : ControllerExpectations :=
  let '(adds, dels) := pending c key now in
  {| ttl := ttl c;
     store := <[key := {| creates := adds; deletes := dels + n; stamp := now |}]>
                (store c) |}.

(** Modelled from the spec: "[Observe*] decrements the matching
    counter", which stays non-negative. *)
Definition ObserveCreation (c : ControllerExpectations) (key : string)
  : ControllerExpectations :=
  {| ttl := ttl c;
     store := alter (fun e => {| creates := Nat.pred (creates e);
                                 deletes := deletes e;
                                 stamp := stamp e |}) key (store c) |}.

Definition ObserveDeletion (c : ControllerExpectations) (key : string)
  : ControllerExpectations :=
  {| ttl := ttl c;
     store := alter (fun e => {| creates := creates e;
                                 deletes := Nat.pred (deletes e);
                                 stamp := stamp e |}) key (store c) |}.

(** Modelled from the spec: "true iff every tracked counter for that
    owner is zero or has expired". *)
Definition SatisfiedExpectations (c : ControllerExpectations) (key : string)
  (now : Z) : bool :=
  let '(adds, dels) := pending c key now in
  Nat.eqb adds 0 && Nat.eqb dels 0.

End Expectations.

(** ** controllers/cluster_controller.go *)

Module Controllers.

(** [ctrl.Request]: the namespaced name of the Cluster to reconcile. *)
Record Request := {
  ReqNamespace : string;
  ReqName : string
}.

(** [ctrl.Result] *)
Record Result := {
  Requeue : bool;
  RequeueAfter : Z
}.

(** [ctrl.Result{}] *)
Definition emptyResult : Result := {| Requeue := false; RequeueAfter := 0 |}.

(** Modelled from the spec: the API package that declares the Cluster
    type is not among the sources. The fields are the ones the
    controller reads: the target instance count of the desired spec and
    its maintenance-window flags, taken as the answers of the two
    methods [IsNodeMaintenanceWindowInProgress] and
    [IsNodeMaintenanceWindowReusePVC], and the observed status. *)
Record ClusterSpec := {
  SpecInstances : Z;
  NodeMaintenanceWindowInProgress : bool;
  NodeMaintenanceWindowReusePVC : bool
}.

Record ClusterStatus := {
  Instances : Z;
  ReadyInstances : Z;
  CurrentPrimary : string;
  TargetPrimary : string;
  DanglingPVC : list string;
  Phase : string;
  PhaseReason : string
}.

Record Cluster := {
  Namespace : string;
  Name : string;
  Spec : ClusterSpec;
  Status : ClusterStatus
}.

Definition IsNodeMaintenanceWindowInProgress (cluster : Cluster) : bool :=
  NodeMaintenanceWindowInProgress (Spec cluster).

Definition IsNodeMaintenanceWindowReusePVC (cluster : Cluster) : bool :=
  NodeMaintenanceWindowReusePVC (Spec cluster).

(** The phase of a Cluster with all its instances ready; the constant
    is declared with the API type. *)
Definition PhaseHealthy : string := "Cluster in healthy state".

(** [corev1.Namespace]: the deletion timestamp is a pointer to a time,
    here the distance from Go's zero time. *)
Record NamespaceObject := {
  DeletionTimestamp : option Z
}.

(** [IsZero] on a pointer to [metav1.Time]: a nil pointer is zero. *)
Definition IsZero (t : option Z) : bool :=
  match t with
  | None => true
  | Some instant => instant =? 0
  end.

Record Pod := { PodName : string }.
Record Job := { JobName : string }.
Record PersistentVolumeClaim := { ClaimName : string }.

(** The snapshot of the child resources of one Cluster. *)
Record managedResources := {
  pods : list Pod;
  jobs : list Job;
  pvcs : list PersistentVolumeClaim
}.

(** [postgres.PostgresqlStatus], one report per instance pod. *)
Record PostgresqlStatus := {
  ReportPodName : string;
  IsPrimary : bool
}.

Definition PostgresqlStatusList := list PostgresqlStatus.

(** The methods of the reconciler and of its API client whose bodies
    are in other files, and the clock the trackers read. A method that
    receives a pointer to the Cluster answers with the Cluster as it
    left it. *)
Record Collaborators := {
  GetCluster : Request -> result Cluster;
  GetNamespace : string -> result NamespaceObject;
  getManagedResources : Cluster -> result managedResources;
  countRunningJobs : managedResources -> Z;
  updateResourceStatus : Cluster -> managedResources -> result Cluster;
  createPostgresClusterObjects : Cluster -> result Cluster;
  getStatusFromInstances : list Pod -> result PostgresqlStatusList;
  updateTargetPrimaryFromPods : Cluster -> PostgresqlStatusList -> result Cluster;
  updateLabelsOnPods : Cluster -> list Pod -> result Cluster;
  handleDanglingPVC : Cluster -> option error;
  createPrimaryInstance : Cluster -> Result * option error;
  RegisterPhase : Cluster -> string -> string -> result Cluster;
  upgradeCluster : Cluster -> list Pod -> PostgresqlStatusList -> option error;
  generateNodeSerial : Cluster -> result (Z * Cluster);
  joinReplicaInstance : Z -> Cluster -> Result * option error;
  scaleDownCluster : Cluster -> list Pod -> option error;
  clock : Z
}.

(** [ClusterReconciler]: the client and helpers, and one expectation
    tracker per resource kind. *)
Record ClusterReconciler := {
  api : Collaborators;
  podExpectations : Expectations.ControllerExpectations;
  jobExpectations : Expectations.ControllerExpectations;
  pvcExpectations : Expectations.ControllerExpectations
}.

(** What one invocation does, in order. *)
Inductive Event :=
| CallGetCluster (req : Request)
| CallGetNamespace (name : string)
| Call_getManagedResources
| Call_updateResourceStatus
| Call_countRunningJobs
| Call_createPostgresClusterObjects
| Call_getStatusFromInstances
| Call_updateTargetPrimaryFromPods
| Call_updateLabelsOnPods
| Call_SatisfiedExpectations
| Call_ReconcilePods
| Call_handleDanglingPVC
| Call_createPrimaryInstance
| Call_RegisterPhase (phase : string)
| Call_upgradeCluster
| Call_generateNodeSerial
| Call_joinReplicaInstance (serial : Z)
| Call_scaleDownCluster
| LogInfo (verbosity : Z) (message : string)
| LogError (message : string).

#[export] Instance Request_eq_dec : EqDecision Request.
Proof. solve_decision. Defined.

#[export] Instance Event_eq_dec : EqDecision Event.
Proof. solve_decision. Defined.

(** Modelled from the spec: [expectations.KeyFunc] is not among the
    sources; the identity of a Cluster is its namespace and name. *)
Definition KeyFunc (cluster : Cluster) : string :=
  Namespace cluster +:+ "/" +:+ Name cluster.

(** Modelled from the spec: the tracker's contract names the resource
    kind; the reconciler keeps one tracker per kind. *)
Inductive Kind := PodKind | JobKind | PVCKind.

Definition updateTracker (r : ClusterReconciler) (kind : Kind)
  (f : Expectations.ControllerExpectations -> Expectations.ControllerExpectations)
  : ClusterReconciler :=
  {| api := api r;
     podExpectations :=
       match kind with PodKind => f (podExpectations r) | _ => podExpectations r end;
     jobExpectations :=
       match kind with JobKind => f (jobExpectations r) | _ => jobExpectations r end;
     pvcExpectations :=
       match kind with PVCKind => f (pvcExpectations r) | _ => pvcExpectations r end |}.

Definition ExpectCreations (r : ClusterReconciler) (key : string) (kind : Kind)
  (n : nat) (now : Z) : ClusterReconciler :=
  updateTracker r kind (fun c => Expectations.ExpectCreations c key n now).

Definition ObserveCreation (r : ClusterReconciler) (key : string) (kind : Kind)
  : ClusterReconciler :=
  updateTracker r kind (fun c => Expectations.ObserveCreation c key).

(** Modelled from the spec: [generateNodeSerial] is not among the
    sources. Rule 7 says "allocate next serial number" and the scenario
    of the spec gives serial 2 to the replica that joins a Cluster of
    one instance: the next serial is the one after the instances the
    Cluster has. The spec gives the allocation no failure. *)
Definition nextNodeSerial (cluster : Cluster) : result (Z * Cluster) :=
  Ok (Instances (Status cluster) + 1, cluster).

(** SatisfiedExpectations check if the expectations for a certain
    cluster are met *)
Definition SatisfiedExpectations (r : ClusterReconciler) (cluster : Cluster)
  (now : Z) : bool :=
  let key := KeyFunc cluster in
  if negb (Expectations.SatisfiedExpectations (podExpectations r) key now) then
    false
  else if negb (Expectations.SatisfiedExpectations (jobExpectations r) key now) then
    false
  else if negb (Expectations.SatisfiedExpectations (pvcExpectations r) key now) then
    false
  else true.

Definition Outcome : Type := (Result * option error)%type.

(** The condition under which [Reconcile] waits for a switchover or a
    failover to complete. *)
Definition switchoverInProgress (cluster : Cluster) : bool :=
  negb (String.eqb (CurrentPrimary (Status cluster)) "")
  && negb (String.eqb (CurrentPrimary (Status cluster))
                      (TargetPrimary (Status cluster))).

(** The line [Reconcile] logs when it does. *)
Definition switchoverWait : Event :=
  LogInfo 0 ("There is a switchover or a failover "
             +:+ "in progress, waiting for the operation to complete").

(** ReconcilePods decides when to create, scale up/down or wait for
    pods *)
Definition ReconcilePods (r : ClusterReconciler) (req : Request)
  (cluster : Cluster) (childPods : list Pod)
  (instancesStatus : PostgresqlStatusList) : M Event Outcome :=
  emit Call_ReconcilePods tt;;
  (* Recreate missing Pods *)
  if (0 <? Z.of_nat (length (DanglingPVC (Status cluster)))) then
    if negb (IsNodeMaintenanceWindowInProgress cluster)
       && negb (ReadyInstances (Status cluster) =? Instances (Status cluster))
    then
      (* A pod is not ready, let's retry *)
      emit (LogInfo 2 "Waiting for node to be ready before attaching PVCs") tt;;
      mret (emptyResult, None)
    else
      err ← emit Call_handleDanglingPVC (handleDanglingPVC (api r) cluster);
      mret (emptyResult, err)
  else if Instances (Status cluster) =? 0 then
    emit Call_createPrimaryInstance (createPrimaryInstance (api r) cluster)
  (* When everything is reconciled, update the status *)
  else if (ReadyInstances (Status cluster) =? Instances (Status cluster))
          && (Instances (Status cluster) =? SpecInstances (Spec cluster))
  then
    registered ← emit (Call_RegisterPhase PhaseHealthy)
                      (RegisterPhase (api r) cluster PhaseHealthy "");
    match registered with
    | Err err => mret (emptyResult, Some err)
    | Ok cluster =>
        (* Check if we need to handle a rolling upgrade *)
        err ← emit Call_upgradeCluster
                   (upgradeCluster (api r) cluster childPods instancesStatus);
        mret (emptyResult, err)
    end
  (* Find if we have Pods that are not ready *)
  else if negb (IsNodeMaintenanceWindowReusePVC cluster)
          && (ReadyInstances (Status cluster) <? Instances (Status cluster))
  then
    (* A Pod is not ready, let's retry *)
    emit (LogInfo 2 "Waiting for Pod to be ready") tt;;
    mret (emptyResult, None)
  (* Are there missing nodes? Let's create one *)
  else if (Instances (Status cluster) <? SpecInstances (Spec cluster))
          && (ReadyInstances (Status cluster) =? Instances (Status cluster))
  then
    generated ← emit Call_generateNodeSerial (generateNodeSerial (api r) cluster);
    match generated with
    | Err err => mret (emptyResult, Some (WrapError "cannot generate node serial" err))
    | Ok (newNodeSerial, cluster) =>
        emit (Call_joinReplicaInstance newNodeSerial)
             (joinReplicaInstance (api r) newNodeSerial cluster)
    end
  (* Are there nodes to be removed? Remove one of them *)
  else if SpecInstances (Spec cluster) <? Instances (Status cluster) then
    failed ← emit Call_scaleDownCluster (scaleDownCluster (api r) cluster childPods);
    match failed with
    | Some err => mret (emptyResult, Some (WrapError "cannot scale down cluster" err))
    | None => mret (emptyResult, None)
    end
  else mret (emptyResult, None).

(** Reconcile is the operator reconciler loop *)
Definition Reconcile (r : ClusterReconciler) (req : Request) : M Event Outcome :=
  fetched ← emit (CallGetCluster req) (GetCluster (api r) req);
  match fetched with
  | Err err =>
      if IsNotFound err then
        emit (LogInfo 0 "Resource has been deleted") tt;;
        mret (emptyResult, None)
      else
        (* This is a real error, maybe the RBAC configuration is wrong? *)
        mret (emptyResult, Some (WrapError "cannot get the managed resource" err))
  | Ok cluster =>
  namespace ← emit (CallGetNamespace (ReqNamespace req))
                   (GetNamespace (api r) (ReqNamespace req));
  match namespace with
  | Err err =>
      mret (emptyResult, Some (WrapError "cannot get the containing namespace" err))
  | Ok namespace =>
  if negb (IsZero (DeletionTimestamp namespace)) then
    mret (emptyResult, None)
  else
  (* Update the status of this resource *)
  collected ← emit Call_getManagedResources (getManagedResources (api r) cluster);
  match collected with
  | Err err =>
      emit (LogError "Cannot extract the list of managed resources") tt;;
      mret (emptyResult, Some err)
  | Ok resources =>
  if switchoverInProgress cluster then
    emit switchoverWait tt;;
    (* [err] is the nil error of getManagedResources *)
    mret (emptyResult, None)
  else
  (* Update the status section of this Cluster resource *)
  updated ← emit Call_updateResourceStatus
                 (updateResourceStatus (api r) cluster resources);
  match updated with
  | Err err =>
      if IsConflict err then
        (* Let's wait for another reconciler loop, since the status
           already changed *)
        mret (emptyResult, None)
      else
        mret (emptyResult, Some (WrapError "cannot update the resource status" err))
  | Ok cluster =>
  (* If we are joining a node, we should wait for the process to finish *)
  running ← emit Call_countRunningJobs (countRunningJobs (api r) resources);
  if 0 <? running then
    emit (LogInfo 2 "Waiting for jobs to finish") tt;;
    mret (emptyResult, None)
  else
  (* Ensure we have the required global objects *)
  created ← emit Call_createPostgresClusterObjects
                 (createPostgresClusterObjects (api r) cluster);
  match created with
  | Err err =>
      mret (emptyResult, Some (WrapError "cannot create Cluster auxiliary objects" err))
  | Ok cluster =>
  (* Get the replication status *)
  reports ← emit Call_getStatusFromInstances
                 (getStatusFromInstances (api r) (pods resources));
  match reports with
  | Err err =>
      mret (emptyResult, Some (WrapError "cannot get status from instances" err))
  | Ok instancesStatus =>
  (* Update the target primary name from the Pods status. *)
  elected ← emit Call_updateTargetPrimaryFromPods
                 (updateTargetPrimaryFromPods (api r) cluster instancesStatus);
  match elected with
  | Err err =>
      mret (emptyResult, Some (WrapError "cannot update target primary from pods" err))
  | Ok cluster =>
  (* Update the labels for the -rw service to work correctly *)
  labelled ← emit Call_updateLabelsOnPods
                  (updateLabelsOnPods (api r) cluster (pods resources));
  match labelled with
  | Err err =>
      mret (emptyResult, Some (WrapError "cannot update labels on pods" err))
  | Ok cluster =>
  (* Act on Pods only if there is nothing that is currently being
     created or deleted *)
  satisfied ← emit Call_SatisfiedExpectations
                   (SatisfiedExpectations r cluster (clock (api r)));
  if satisfied : bool then
    ReconcilePods r req cluster (pods resources) instancesStatus
  else
    emit (LogInfo 2 ("A managed resource is currently being created "
                     +:+ "or deleted. Waiting")) tt;;
    mret (emptyResult, None)
  end end end end end end end end.

End Controllers.

(** ** github.com/blang/semver, as far as the archiver uses it *)

Module Semver.

(** One dot-separated part of a pre-release tag: a number or a word. *)
Record PRVersion := {
  VersionStr : string;
  VersionNum : N;
  IsNum : bool
}.

Record Version := {
  Major : N;
  Minor : N;
  Patch : N;
  Pre : list PRVersion;
  Build : list string
}.

(** [PRVersion.Compare]: numbers sort before words, numbers by value,
    words byte by byte. *)
Definition PRCompare (v o : PRVersion) : Z :=
  if IsNum v && negb (IsNum o) then -1
  else if negb (IsNum v) && IsNum o then 1
  else if IsNum v && IsNum o then
    if (VersionNum v =? VersionNum o)%N then 0
    else if (VersionNum o <? VersionNum v)%N then 1
    else -1
  else
    match String.compare (VersionStr v) (VersionStr o) with
    | Eq => 0
    | Gt => 1
    | Lt => -1
    end.

(** The loop of [Version.Compare] over the two pre-release tags, once
    both are known to be non-empty, and its tail. *)
Fixpoint comparePre (v o : list PRVersion) : Z :=
  match v, o with
  | x :: v', y :: o' =>
      let comp := PRCompare x y in
      if comp =? 0 then comparePre v' o'
      else if comp =? 1 then 1
      else -1
  | [], [] => 0
  | [], _ :: _ => -1
  | _ :: _, [] => 1
  end.

(** [Version.Compare] *)
Definition Compare (v o : Version) : Z :=
  if negb (Major v =? Major o)%N then
    if (Major o <? Major v)%N then 1 else -1
  else if negb (Minor v =? Minor o)%N then
    if (Minor o <? Minor v)%N then 1 else -1
  else if negb (Patch v =? Patch o)%N then
    if (Patch o <? Patch v)%N then 1 else -1
  else
    (* Quick comparison if a version has no prerelease versions *)
    match Pre v, Pre o with
    | [], [] => 0
    | [], _ :: _ => 1
    | _ :: _, [] => -1
    | _ :: _, _ :: _ => comparePre (Pre v) (Pre o)
    end.

(** [Version.GE] *)
Definition GE (v o : Version) : bool := 0 <=? Compare v o.

Definition PRString (v : PRVersion) : string :=
  if IsNum v then pretty (VersionNum v) else VersionStr v.

Definition joinDots (parts : list string) : string :=
  match parts with
  | [] => ""
  | first :: others => fold_left (fun b part => b +:+ "." +:+ part) others first
  end.

(** [Version.String] *)
Definition String (v : Version) : string :=
  let b := pretty (Major v) +:+ "." +:+ pretty (Minor v) +:+ "." +:+ pretty (Patch v) in
  let b := match Pre v with
           | [] => b
           | _ :: _ => b +:+ "-" +:+ joinDots (PRString <$> Pre v)
           end in
  match Build v with
  | [] => b
  | _ :: _ => b +:+ "+" +:+ joinDots (Build v)
  end.

End Semver.

(** ** internal/cmd/manager/walarchive/cmd.go *)

Module WalArchive.

Definition barmanCloudWalArchiveName : string := "barman-cloud-wal-archive".

(** Modelled from the spec: the API package that declares the backup
    configuration is not among the sources. The fields are the ones the
    command reads: compression flag, encryption flag, endpoint URL,
    credentials per cloud provider, destination path and server name. *)
Record WalBackupConfiguration := {
  Compression : string;
  Encryption : string
}.

Record S3Credentials := { S3Secret : string }.
Record AzureCredentials := { AzureSecret : string }.

Record BarmanObjectStoreConfiguration := {
  S3 : option S3Credentials;
  Azure : option AzureCredentials;
  EndpointURL : string;
  DestinationPath : string;
  ServerName : string;
  Wal : option WalBackupConfiguration
}.

Record BackupConfiguration := {
  BarmanObjectStore : option BarmanObjectStoreConfiguration
}.

Record Cluster := {
  Namespace : string;
  Backup : option BackupConfiguration;
  CurrentPrimary : string;
  TargetPrimary : string
}.

(** How a call ends: it returns, or it panics on a nil pointer. *)
Inductive completion (T : Type) :=
| Returns (v : T)
| Panics.
Arguments Returns {T} v.
Arguments Panics {T}.

(** [fmt.Sprintf("%v", version)] for a pointer to a version. *)
Definition formatVersion (version : option Semver.Version) : string :=
  match version with
  | None => "<nil>"
  | Some v => Semver.String v
  end.

Definition version213 : Semver.Version :=
  {| Semver.Major := 2; Semver.Minor := 13; Semver.Patch := 0;
     Semver.Pre := []; Semver.Build := [] |}.

(** [fmt.Errorf] of the message that asks for a newer barman. *)
Definition azureNeedsBarman213 (version : option Semver.Version) : error :=
  ErrorString ("barman >= 2.13 is required to use Azure object storage, current: "
               +:+ formatVersion version).

(** The flag of the same name: false when the version is not known. *)
Definition barmanCloudVersionGE213 (version : option Semver.Version) : bool :=
  match version with
  | Some v => Semver.GE v version213
  | None => false
  end.

(** The part of [barmanCloudWalArchiveOptions] that runs once the
    configuration pointer has been followed. *)
Definition optionsOf (configuration : BarmanObjectStoreConfiguration)
  (clusterName walName : string) (version : option Semver.Version)
  : list string * option error :=
  let options : list string := [] in
  let options :=
    match Wal configuration with
    | Some wal =>
        let options :=
          if negb (String.length (Compression wal) =? 0)%nat
          then options ++ ["--" +:+ Compression wal]
          else options in
        if negb (String.length (Encryption wal) =? 0)%nat
        then options ++ ["-e"; Encryption wal]
        else options
    | None => options
    end in
  let options :=
    if (0 <? String.length (EndpointURL configuration))%nat
    then options ++ ["--endpoint-url"; EndpointURL configuration]
    else options in
  let gated : result (list string) :=
    if barmanCloudVersionGE213 version then
      let options :=
        match S3 configuration with
        | Some _ => options ++ ["--cloud-provider"; "aws-s3"]
        | None => options
        end in
      match Azure configuration with
      | Some _ => Ok (options ++ ["--cloud-provider"; "azure-blob-storage"])
      | None => Ok options
      end
    else
      match Azure configuration with
      | Some _ =>
          Err (azureNeedsBarman213 version)
      | None => Ok options
      end in
  match gated with
  | Err err => ([], Some err)
  | Ok options =>
      let serverName :=
        if negb (String.length (ServerName configuration) =? 0)%nat
        then ServerName configuration else clusterName in
      (options ++ [DestinationPath configuration; serverName; walName], None)
  end.

Definition barmanCloudWalArchiveOptions (cluster : Cluster)
  (clusterName walName : string) (version : option Semver.Version)
  : completion (list string * option error) :=
  match Backup cluster with
  | None => Panics
  | Some backup =>
      match BarmanObjectStore backup with
      | None => Panics
      | Some configuration =>
          Returns (optionsOf configuration clusterName walName version)
      end
  end.

(** The collaborators of [run]: the API client and its cache, the
    version probe and the subprocess runner. *)
Record Collaborators := {
  NewControllerRuntimeClient : option error;
  GetCluster : string -> string -> result Cluster;
  GetBarmanCloudVersion : string -> option Semver.Version * option error;
  GetEnv : string -> BarmanObjectStoreConfiguration -> result (list string);
  RunStreaming : string -> list string -> list string -> option error
}.

Inductive Event :=
| Call_NewControllerRuntimeClient
| Call_GetCluster (namespace clusterName : string)
| Call_GetBarmanCloudVersion (tool : string)
| Call_GetEnv
| Exec (command : string) (options env : list string)
| LogInfo (message : string)
| LogTrace (message : string)
| LogError (err : error) (message : string).

#[export] Instance Event_eq_dec : EqDecision Event.
Proof. solve_decision. Defined.

Definition isExec (e : Event) : bool :=
  match e with Exec _ _ _ => true | _ => false end.

(** [run], called with [args] of length one: [walName] is [args[0]]. *)
Definition run (w : Collaborators) (namespace clusterName walName : string)
  : M Event (completion (option error)) :=
  made ← emit Call_NewControllerRuntimeClient (NewControllerRuntimeClient w);
  match made with
  | Some err =>
      emit (LogError err "Error while creating k8s client") tt;;
      mret (Returns (Some err))
  | None =>
  fetched ← emit (Call_GetCluster namespace clusterName)
                 (GetCluster w namespace clusterName);
  match fetched with
  | Err err =>
      emit (LogError err "Error while getting cluster from cache") tt;;
      mret (Returns (Some (WrapError "failed to get cluster" err)))
  | Ok cluster =>
  match Backup cluster ≫= BarmanObjectStore with
  | None =>
      (* Backup not configured, skipping WAL *)
      emit (LogInfo "Backup not configured, skip WAL archiving") tt;;
      mret (Returns None)
  | Some configuration =>
  probed ← emit (Call_GetBarmanCloudVersion barmanCloudWalArchiveName)
                (GetBarmanCloudVersion w barmanCloudWalArchiveName);
  let '(version, err) := probed in
  match err with
   | Some err => emit (LogError err "while getting barman-cloud-wal-archive version") tt
   | None => mret tt
   end;;
  match barmanCloudWalArchiveOptions cluster clusterName walName version with
  | Panics => mret Panics
  | Returns (_, Some err) =>
      emit (LogError err "while getting barman-cloud-wal-archive options") tt;;
      mret (Returns (Some err))
  | Returns (options, None) =>
  env ← emit Call_GetEnv (GetEnv w (Namespace cluster) configuration);
  match env with
  | Err err =>
      emit (LogError err "Error while getting environment from cache") tt;;
      mret (Returns (Some (WrapError "failed to get envs" err)))
  | Ok env =>
  emit (LogTrace ("Executing " +:+ barmanCloudWalArchiveName)) tt;;
  failed ← emit (Exec barmanCloudWalArchiveName options env)
                (RunStreaming w barmanCloudWalArchiveName options env);
  match failed with
  | Some err =>
      emit (LogError err ("Error invoking " +:+ barmanCloudWalArchiveName)) tt;;
      mret (Returns (Some (WrapError
                             ("unexpected failure invoking " +:+ barmanCloudWalArchiveName)
                             err)))
  | None =>
      emit (LogInfo "Archived WAL file") tt;;
      mret (Returns None)
  end end end end end end.

(** An object store on Azure, and the versions of the tool around the
    threshold. *)
Definition azureStore : BarmanObjectStoreConfiguration :=
  {| S3 := None;
     Azure := Some {| AzureSecret := "azure-creds" |};
     EndpointURL := "";
     DestinationPath := "https://account.blob.core.windows.net/backups";
     ServerName := "";
     Wal := Some {| Compression := "gzip"; Encryption := "" |} |}.

Definition azureCluster : Cluster :=
  {| Namespace := "default";
     Backup := Some {| BarmanObjectStore := Some azureStore |};
     CurrentPrimary := "cluster-example-1";
     TargetPrimary := "cluster-example-1" |}.

Definition release (major minor patch : N) : Semver.Version :=
  {| Semver.Major := major; Semver.Minor := minor; Semver.Patch := patch;
     Semver.Pre := []; Semver.Build := [] |}.

Definition installation (version : option Semver.Version) : Collaborators :=
  {| NewControllerRuntimeClient := None;
     GetCluster := fun _ _ => Ok azureCluster;
     GetBarmanCloudVersion := fun _ => (version, None);
     GetEnv := fun _ _ => Ok ["AZURE_STORAGE_ACCOUNT=account"];
     RunStreaming := fun _ _ _ => None |}.

End WalArchive.

(** ** The steps of the loop, as the specification names them *)

Module Steps.
Import Controllers.

Inductive Step :=
| Snapshot
| StatusProjection
| TopologyResolution
| ExpectationsGate
| ActionSelection.

#[export] Instance Step_eq_dec : EqDecision Step.
Proof. solve_decision. Defined.

(** The call that carries out each step. *)
Definition stepOf (e : Event) : option Step :=
  match e with
  | Call_getManagedResources => Some Snapshot
  | Call_updateResourceStatus => Some StatusProjection
  | Call_updateTargetPrimaryFromPods => Some TopologyResolution
  | Call_SatisfiedExpectations => Some ExpectationsGate
  | Call_ReconcilePods => Some ActionSelection
  | _ => None
  end.

Definition steps (trace : list Event) : list Step := omap stepOf trace.

Definition controlFlow : list Step :=
  [Snapshot; StatusProjection; TopologyResolution; ExpectationsGate;
   ActionSelection].

(** The calls that act on pods, jobs or claims. *)
Definition isAction (e : Event) : bool :=
  match e with
  | Call_handleDanglingPVC
  | Call_createPrimaryInstance
  | Call_upgradeCluster
  | Call_joinReplicaInstance _
  | Call_scaleDownCluster => true
  | _ => false
  end.

Definition actions (trace : list Event) : list Event := filter isAction trace.

(** What the loop does up to and including the snapshot. *)
Definition preamble (req : Request) : list Event :=
  [CallGetCluster req; CallGetNamespace (ReqNamespace req);
   Call_getManagedResources].

(** The invocation got its Cluster, a namespace that is not being
    deleted, and its snapshot. *)
Definition snapshotCollected (r : ClusterReconciler) (req : Request)
  (cluster : Cluster) (resources : managedResources) : Prop :=
  GetCluster (api r) req = Ok cluster
  /\ (exists namespace,
        GetNamespace (api r) (ReqNamespace req) = Ok namespace
        /\ IsZero (DeletionTimestamp namespace) = true)
  /\ getManagedResources (api r) cluster = Ok resources.

End Steps.

(** ** Concrete clusters and platforms, for the examples *)

Module Samples.
Import Controllers.

Definition request : Request :=
  {| ReqNamespace := "default"; ReqName := "cluster-example" |}.

Definition clusterWith (spec : ClusterSpec) (status : ClusterStatus) : Cluster :=
  {| Namespace := "default"; Name := "cluster-example";
     Spec := spec; Status := status |}.

Definition threeInstances (inProgress reusePVC : bool) : ClusterSpec :=
  {| SpecInstances := 3;
     NodeMaintenanceWindowInProgress := inProgress;
     NodeMaintenanceWindowReusePVC := reusePVC |}.

Definition statusWith (instances ready : Z) (current target : string)
  (dangling : list string) : ClusterStatus :=
  {| Instances := instances; ReadyInstances := ready;
     CurrentPrimary := current; TargetPrimary := target;
     DanglingPVC := dangling;
     Phase := ""; PhaseReason := "" |}.

Definition liveNamespace : NamespaceObject := {| DeletionTimestamp := None |}.
Definition dyingNamespace : NamespaceObject := {| DeletionTimestamp := Some 1600000000 |}.

Definition noResources : managedResources := {| pods := []; jobs := []; pvcs := [] |}.

Definition oneJob : managedResources :=
  {| pods := [ {| PodName := "cluster-example-1" |} ];
     jobs := [ {| JobName := "cluster-example-2-join" |} ];
     pvcs := [ {| ClaimName := "cluster-example-1" |} ] |}.

(** A platform on which every call succeeds and leaves the Cluster as
    it was, except the ones given. *)
Definition platform (fetched : result Cluster) (namespace : result NamespaceObject)
  (resources : managedResources) (running : Z)
  (statusUpdate : Cluster -> result Cluster) : Collaborators :=
  {| GetCluster := fun _ => fetched;
     GetNamespace := fun _ => namespace;
     getManagedResources := fun _ => Ok resources;
     countRunningJobs := fun _ => running;
     updateResourceStatus := fun cluster _ => statusUpdate cluster;
     createPostgresClusterObjects := fun cluster => Ok cluster;
     getStatusFromInstances := fun _ => Ok [];
     updateTargetPrimaryFromPods := fun cluster _ => Ok cluster;
     updateLabelsOnPods := fun cluster _ => Ok cluster;
     handleDanglingPVC := fun _ => None;
     createPrimaryInstance := fun _ => (emptyResult, None);
     RegisterPhase := fun cluster _ _ => Ok cluster;
     upgradeCluster := fun _ _ _ => None;
     generateNodeSerial := nextNodeSerial;
     joinReplicaInstance := fun _ _ => (emptyResult, None);
     scaleDownCluster := fun _ _ => None;
     clock := 60 |}.

Definition horizon : Z := 300.

Definition idle : Expectations.ControllerExpectations :=
  Expectations.NewControllerExpectations horizon.

(** A reconciler with nothing in flight. *)
Definition reconciler (w : Collaborators) : ClusterReconciler :=
  {| api := w; podExpectations := idle; jobExpectations := idle;
     pvcExpectations := idle |}.

(** A reconciler that issued the creation of one pod at time 0. *)
Definition reconcilerAwaitingPod (w : Collaborators) : ClusterReconciler :=
  {| api := w;
     podExpectations :=
       Expectations.ExpectCreations idle "default/cluster-example" 1 0;
     jobExpectations := idle;
     pvcExpectations := idle |}.

Definition primary : string := "cluster-example-1".

(** Three ready instances out of three. *)
Definition healthy : Cluster :=
  clusterWith (threeInstances false false) (statusWith 3 3 primary primary []).

(** A new Cluster: no instance yet, no current primary, the target
    already chosen. *)
Definition bootstrapping : Cluster :=
  clusterWith (threeInstances false false) (statusWith 0 0 "" primary []).

(** A switchover from the first instance to the second. *)
Definition switching : Cluster :=
  clusterWith (threeInstances false false)
    (statusWith 3 3 primary "cluster-example-2" []).

(** No pod left, the claim of the first instance still there. *)
Definition orphaned : Cluster :=
  clusterWith (threeInstances false false)
    (statusWith 0 0 primary primary ["cluster-example-1"]).

(** A node under maintenance whose claims are not to be reused: the
    third pod is gone and the second is not ready. *)
Definition draining : Cluster :=
  clusterWith (threeInstances true false)
    (statusWith 2 1 primary primary ["cluster-example-3"]).

(** One ready instance out of three. *)
Definition growing : Cluster :=
  clusterWith (threeInstances false false) (statusWith 1 1 primary primary []).

Definition succeeds (cluster : Cluster) : result Cluster := Ok cluster.

Definition conflict : error :=
  StatusError StatusReasonConflict
    "Operation cannot be fulfilled: the object has been modified".

Definition notFound : error :=
  StatusError StatusReasonNotFound "clusters.postgresql.k8s.enterprisedb.io not found".

Definition deadline : error := ErrorString "context deadline exceeded".

Definition steady (cluster : Cluster) : Collaborators :=
  platform (Ok cluster) (Ok liveNamespace) noResources 0 succeeds.


(** A switchover in progress while the creation of a pod is still
    expected. *)
Definition switchingReconciler : ClusterReconciler :=
  reconcilerAwaitingPod (steady switching).

End Samples.

(** ** The way to the expectations gate *)

Module Flow.
Import Controllers Steps.

(** What the loop does from the snapshot up to and including the
    expectations gate, when nothing stops it before. *)
Definition gatePrefix (req : Request) : list Event :=
  preamble req
  ++ [Call_updateResourceStatus; Call_countRunningJobs;
      Call_createPostgresClusterObjects; Call_getStatusFromInstances;
      Call_updateTargetPrimaryFromPods; Call_updateLabelsOnPods;
      Call_SatisfiedExpectations].

(** The line [Reconcile] logs when the expectations are not met. *)
Definition expectationsWait : Event :=
  LogInfo 2 ("A managed resource is currently being created "
             +:+ "or deleted. Waiting").

(** The invocation got as far as the status update and that succeeded, leaving
    the Cluster as [current]. *)
Definition statusProjected (r : ClusterReconciler) (req : Request)
  (cluster : Cluster) (resources : managedResources) (current : Cluster) : Prop :=
  snapshotCollected r req cluster resources
  /\ switchoverInProgress cluster = false
  /\ updateResourceStatus (api r) cluster resources = Ok current.

(** The invocation got as far as the expectations gate: no switchover,
    no running job, and every collaborator on the way succeeded, leaving
    the Cluster as [labelled]. *)
Definition reachesGate (r : ClusterReconciler) (req : Request)
  (resources : managedResources) (instancesStatus : PostgresqlStatusList)
  (labelled : Cluster) : Prop :=
  exists cluster current prepared elected,
    statusProjected r req cluster resources current
    /\ countRunningJobs (api r) resources <= 0
    /\ createPostgresClusterObjects (api r) current = Ok prepared
    /\ getStatusFromInstances (api r) (pods resources) = Ok instancesStatus
    /\ updateTargetPrimaryFromPods (api r) prepared instancesStatus = Ok elected
    /\ updateLabelsOnPods (api r) elected (pods resources) = Ok labelled.

End Flow.

(** ** More platforms, for the examples *)

Module MoreSamples.
Import Controllers Samples.

(** Two instances out of three, the second one not ready yet. *)
Definition starting : Cluster :=
  clusterWith (threeInstances false false) (statusWith 2 1 primary primary []).

(** A platform whose instances cannot be queried in time. *)
Definition unreachableInstances : Collaborators :=
  {| GetCluster := GetCluster (steady growing);
     GetNamespace := GetNamespace (steady growing);
     getManagedResources := getManagedResources (steady growing);
     countRunningJobs := countRunningJobs (steady growing);
     updateResourceStatus := updateResourceStatus (steady growing);
     createPostgresClusterObjects := createPostgresClusterObjects (steady growing);
     getStatusFromInstances := fun _ => Err deadline;
     updateTargetPrimaryFromPods := updateTargetPrimaryFromPods (steady growing);
     updateLabelsOnPods := updateLabelsOnPods (steady growing);
     handleDanglingPVC := handleDanglingPVC (steady growing);
     createPrimaryInstance := createPrimaryInstance (steady growing);
     RegisterPhase := RegisterPhase (steady growing);
     upgradeCluster := upgradeCluster (steady growing);
     generateNodeSerial := generateNodeSerial (steady growing);
     joinReplicaInstance := joinReplicaInstance (steady growing);
     scaleDownCluster := scaleDownCluster (steady growing);
     clock := clock (steady growing) |}.

(** A platform whose creation of the first instance asks to be called
    again. *)
Definition requeueing : Collaborators :=
  {| GetCluster := GetCluster (steady bootstrapping);
     GetNamespace := GetNamespace (steady bootstrapping);
     getManagedResources := getManagedResources (steady bootstrapping);
     countRunningJobs := countRunningJobs (steady bootstrapping);
     updateResourceStatus := updateResourceStatus (steady bootstrapping);
     createPostgresClusterObjects := createPostgresClusterObjects (steady bootstrapping);
     getStatusFromInstances := getStatusFromInstances (steady bootstrapping);
     updateTargetPrimaryFromPods := updateTargetPrimaryFromPods (steady bootstrapping);
     updateLabelsOnPods := updateLabelsOnPods (steady bootstrapping);
     handleDanglingPVC := handleDanglingPVC (steady bootstrapping);
     createPrimaryInstance := fun _ => ({| Requeue := true; RequeueAfter := 1 |}, None);
     RegisterPhase := RegisterPhase (steady bootstrapping);
     upgradeCluster := upgradeCluster (steady bootstrapping);
     generateNodeSerial := generateNodeSerial (steady bootstrapping);
     joinReplicaInstance := joinReplicaInstance (steady bootstrapping);
     scaleDownCluster := scaleDownCluster (steady bootstrapping);
     clock := clock (steady bootstrapping) |}.

(** A platform on which the phase of the Cluster cannot be written. *)
Definition unwritablePhase : Collaborators :=
  {| GetCluster := GetCluster (steady healthy);
     GetNamespace := GetNamespace (steady healthy);
     getManagedResources := getManagedResources (steady healthy);
     countRunningJobs := countRunningJobs (steady healthy);
     updateResourceStatus := updateResourceStatus (steady healthy);
     createPostgresClusterObjects := createPostgresClusterObjects (steady healthy);
     getStatusFromInstances := getStatusFromInstances (steady healthy);
     updateTargetPrimaryFromPods := updateTargetPrimaryFromPods (steady healthy);
     updateLabelsOnPods := updateLabelsOnPods (steady healthy);
     handleDanglingPVC := handleDanglingPVC (steady healthy);
     createPrimaryInstance := createPrimaryInstance (steady healthy);
     RegisterPhase := fun _ _ _ => Err conflict;
     upgradeCluster := upgradeCluster (steady healthy);
     generateNodeSerial := generateNodeSerial (steady healthy);
     joinReplicaInstance := joinReplicaInstance (steady healthy);
     scaleDownCluster := scaleDownCluster (steady healthy);
     clock := clock (steady healthy) |}.

End MoreSamples.

(** ** SetupWithManager and its field indexers *)

Module Setup.
Import Controllers.

Definition podOwnerKey : string := ".metadata.controller".
Definition pvcOwnerKey : string := ".metadata.controller".
Definition jobOwnerKey : string := ".metadata.controller".

(** [metav1.OwnerReference]; [Controller] is a pointer to a bool. *)
Record OwnerReference := {
  APIVersion : string;
  Kind : string;
  OwnerName : string;
  Controller : option bool
}.

(** [metav1.GetControllerOf], on the owner references of the object:
    the first reference whose [Controller] is set and true. *)
Fixpoint GetControllerOf (refs : list OwnerReference) : option OwnerReference :=
  match refs with
  | [] => None
  | ref :: others =>
      match Controller ref with
      | Some true => Some ref
      | _ => GetControllerOf others
      end
  end.

(** The objects the indexers are registered for, with their owner
    references. *)
Inductive Object :=
| PodObject (refs : list OwnerReference)
| ClaimObject (refs : list OwnerReference)
| JobObject (refs : list OwnerReference).

Inductive ObjectKind := PodType | ClaimType | JobType.

Section Indexers.
(** [v1alpha1.GroupVersion.String()] and [v1alpha1.ClusterKind], which
    are declared with the API type. *)
Variable apiGVString : string.
Variable ClusterKind : string.

(** The body the three indexers share, after the type assertion. *)
Definition ownerIndex (refs : list OwnerReference) : list string :=
  match GetControllerOf refs with
  | None => []
  | Some owner =>
      if negb (String.eqb (APIVersion owner) apiGVString)
         || negb (String.eqb (Kind owner) ClusterKind)
      then []
      else [OwnerName owner]
  end.

(** The indexer of pods; the type assertion panics on anything else. *)
Definition podIndexer (rawObj : Object) : WalArchive.completion (list string) :=
  match rawObj with
  | PodObject refs => WalArchive.Returns (ownerIndex refs)
  | _ => WalArchive.Panics
  end.

Definition pvcIndexer (rawObj : Object) : WalArchive.completion (list string) :=
  match rawObj with
  | ClaimObject refs => WalArchive.Returns (ownerIndex refs)
  | _ => WalArchive.Panics
  end.

Definition jobIndexer (rawObj : Object) : WalArchive.completion (list string) :=
  match rawObj with
  | JobObject refs => WalArchive.Returns (ownerIndex refs)
  | _ => WalArchive.Panics
  end.

End Indexers.

(** The manager: whether each field index can be registered, and
    whether the controller can be built. *)
Record Manager := {
  IndexField : ObjectKind -> string -> option error;
  Complete : option error
}.

Inductive SetupEvent :=
| Call_IndexField (kind : ObjectKind) (field : string)
| Call_Complete.

(** SetupWithManager creates a ClusterReconciler: the trackers are
    renewed first, then the three indexes are registered, then the
    controller is built; the first failure is returned. [horizon] is
    the time-to-live that the tracker package fixes. *)
Definition SetupWithManager (horizon : Z) (r : ClusterReconciler) (mgr : Manager)
  : M SetupEvent (ClusterReconciler * option error) :=
  let r := {| api := api r;
              podExpectations := Expectations.NewControllerExpectations horizon;
              jobExpectations := Expectations.NewControllerExpectations horizon;
              pvcExpectations := Expectations.NewControllerExpectations horizon |} in
  failed ← emit (Call_IndexField PodType podOwnerKey) (IndexField mgr PodType podOwnerKey);
  match failed with
  | Some err => mret (r, Some err)
  | None =>
  failed ← emit (Call_IndexField ClaimType pvcOwnerKey)
                (IndexField mgr ClaimType pvcOwnerKey);
  match failed with
  | Some err => mret (r, Some err)
  | None =>
  failed ← emit (Call_IndexField JobType jobOwnerKey) (IndexField mgr JobType jobOwnerKey);
  match failed with
  | Some err => mret (r, Some err)
  | None =>
  built ← emit Call_Complete (Complete mgr);
  mret (r, built)
  end end end.

(** A pod of the Cluster, a pod of one of its jobs, and a claim that
    names the Cluster as a plain owner. *)
Definition clusterOwner (controller : option bool) : OwnerReference :=
  {| APIVersion := "postgresql.k8s.enterprisedb.io/v1alpha1"; Kind := "Cluster";
     OwnerName := "cluster-example"; Controller := controller |}.

Definition jobOwner : OwnerReference :=
  {| APIVersion := "batch/v1"; Kind := "Job";
     OwnerName := "cluster-example-2-join"; Controller := Some true |}.

(** A manager that cannot register the index of claims. *)
Definition brokenManager : Manager :=
  {| IndexField := fun kind _ =>
                     match kind with
                     | ClaimType => Some (ErrorString "indexer conflict")
                     | _ => None
                     end;
     Complete := None |}.

End Setup.

(** ** More installations of the archiver, for the examples *)

Module WalSamples.
Import WalArchive.

(** The same collaborators with another answer of the version probe. *)
Definition withProbe (w : Collaborators)
  (probe : option Semver.Version * option error) : Collaborators :=
  {| NewControllerRuntimeClient := NewControllerRuntimeClient w;
     GetCluster := GetCluster w;
     GetBarmanCloudVersion := fun _ => probe;
     GetEnv := GetEnv w;
     RunStreaming := RunStreaming w |}.

(** The same store without its S3 credentials. *)
Definition withoutS3 (configuration : BarmanObjectStoreConfiguration)
  : BarmanObjectStoreConfiguration :=
  {| S3 := None;
     Azure := Azure configuration;
     EndpointURL := EndpointURL configuration;
     DestinationPath := DestinationPath configuration;
     ServerName := ServerName configuration;
     Wal := Wal configuration |}.

Definition s3Store : BarmanObjectStoreConfiguration :=
  {| S3 := Some {| S3Secret := "aws-creds" |};
     Azure := None;
     EndpointURL := "https://minio.example.com";
     DestinationPath := "s3://backups/";
     ServerName := "pg-main";
     Wal := Some {| Compression := "bzip2"; Encryption := "AES256" |} |}.

Definition s3Cluster : Cluster :=
  {| Namespace := "default";
     Backup := Some {| BarmanObjectStore := Some s3Store |};
     CurrentPrimary := "cluster-example-1";
     TargetPrimary := "cluster-example-1" |}.

Definition plainCluster : Cluster :=
  {| Namespace := "default"; Backup := None;
     CurrentPrimary := "cluster-example-1";
     TargetPrimary := "cluster-example-1" |}.

Definition plainInstallation : Collaborators :=
  {| NewControllerRuntimeClient := None;
     GetCluster := fun _ _ => Ok plainCluster;
     GetBarmanCloudVersion := fun _ => (None, None);
     GetEnv := fun _ _ => Ok [];
     RunStreaming := fun _ _ _ => None |}.

Definition s3Installation (probe : option Semver.Version * option error)
  (outcome : option error) : Collaborators :=
  {| NewControllerRuntimeClient := None;
     GetCluster := fun _ _ => Ok s3Cluster;
     GetBarmanCloudVersion := fun _ => probe;
     GetEnv := fun _ _ => Ok ["AWS_ACCESS_KEY_ID=key"];
     RunStreaming := fun _ _ _ => outcome |}.

End WalSamples.

(** * Properties *)

(** ** Proof tools *)

(** Case analysis on the answer of the next collaborator: the innermost
    scrutinee that is not itself a case analysis. *)
Ltac split_step :=
  match goal with
  | |- context [match ?x with _ => _ end] =>
      lazymatch x with
      | context [match _ with _ => _ end] => fail
      | _ => destruct x eqn:?
      end
  end.

Ltac split_run := repeat (split_step; cbn).

Lemma cons_not_elem {A} (x y : A) (l : list A) : x ≠ y → x ∉ l → x ∉ y :: l.
Proof. intros Hne Hnot [Heq | Hin]%elem_of_cons; [by apply Hne | by apply Hnot]. Qed.

Ltac absent :=
  repeat (apply cons_not_elem; [discriminate |]); apply not_elem_of_nil.

(** ** The loop *)

Module ReconcileFacts.
Import Controllers Steps.

#[local] Arguments ReconcilePods : simpl never.

Section Invocation.
Variable r : ClusterReconciler.
Variable req : Request.

(** The selector announces itself and then logs a wait or calls
    collaborators of its own: action selection is its only step. *)
Lemma ReconcilePods_steps cluster childPods instancesStatus :
  steps (events (ReconcilePods r req cluster childPods instancesStatus))
  = [ActionSelection].
Proof. unfold ReconcilePods. cbn. split_run; reflexivity. Qed.

Lemma ReconcilePods_no_switchoverWait cluster childPods instancesStatus :
  switchoverWait ∉ events (ReconcilePods r req cluster childPods instancesStatus).
Proof. unfold ReconcilePods. cbn. split_run; absent. Qed.

Section AfterSnapshot.
Variable cluster : Cluster.
Variable resources : managedResources.
Hypothesis collected : snapshotCollected r req cluster resources.

Ltac enter :=
  destruct collected as (Hc & (ns & Hns & Hlive) & Hres);
  unfold Reconcile; cbn; rewrite Hc, Hns; cbn; rewrite Hlive; cbn;
  rewrite Hres; cbn.

Lemma Reconcile_switchover :
  switchoverInProgress cluster = true →
  Reconcile r req = (preamble req ++ [switchoverWait], (emptyResult, None)).
Proof. intros Hsw. enter. rewrite Hsw. reflexivity. Qed.

Lemma Reconcile_status_failure err :
  switchoverInProgress cluster = false →
  updateResourceStatus (api r) cluster resources = Err err →
  Reconcile r req
  = (preamble req ++ [Call_updateResourceStatus],
     (emptyResult,
      if IsConflict err then None
      else Some (WrapError "cannot update the resource status" err))).
Proof.
  intros Hsw Hup. enter. rewrite Hsw. cbn. rewrite Hup. cbn.
  destruct (IsConflict err); reflexivity.
Qed.

Lemma Reconcile_running_jobs current :
  switchoverInProgress cluster = false →
  updateResourceStatus (api r) cluster resources = Ok current →
  0 < countRunningJobs (api r) resources →
  Reconcile r req
  = (preamble req ++ [Call_updateResourceStatus; Call_countRunningJobs;
                      LogInfo 2 "Waiting for jobs to finish"],
     (emptyResult, None)).
Proof.
  intros Hsw Hup Hrun. enter. rewrite Hsw. cbn. rewrite Hup. cbn.
  apply Z.ltb_lt in Hrun. rewrite Hrun. reflexivity.
Qed.

Lemma Reconcile_steps_prefix :
  steps (events (Reconcile r req)) `prefix_of` controlFlow.
Proof.
  enter. unfold steps, controlFlow.
  destruct (switchoverInProgress cluster); cbn; [by eexists |].
  destruct (updateResourceStatus _ _ _); cbn.
  2: { destruct (IsConflict _); cbn; by eexists. }
  destruct (0 <? _); cbn; [by eexists |].
  destruct (createPostgresClusterObjects _ _); cbn; [| by eexists].
  destruct (getStatusFromInstances _ _); cbn; [| by eexists].
  destruct (updateTargetPrimaryFromPods _ _ _); cbn; [| by eexists].
  destruct (updateLabelsOnPods _ _ _); cbn; [| by eexists].
  destruct (SatisfiedExpectations _ _ _); cbn; [| by eexists].
  match goal with
  | |- context [ReconcilePods ?a ?b ?c ?d ?e] =>
      pose proof (ReconcilePods_steps c d e) as Hsel;
      destruct (ReconcilePods a b c d e) as [trace answer]
  end.
  cbn in *. unfold steps in Hsel. rewrite Hsel. by exists [].
Qed.

Lemma Reconcile_no_switchover :
  switchoverInProgress cluster = false →
  ∃ rest, events (Reconcile r req)
          = preamble req ++ Call_updateResourceStatus :: rest
          ∧ switchoverWait ∉ rest.
Proof.
  intros Hsw. enter. rewrite Hsw. cbn.
  split_run; eexists; (split; [reflexivity |]);
    repeat (apply cons_not_elem; [discriminate |]); try apply not_elem_of_nil.
  match goal with
  | H : ReconcilePods ?a ?b ?c ?d ?e = _ |- _ =>
      pose proof (ReconcilePods_no_switchoverWait c d e) as Hsel;
      rewrite H in Hsel; exact Hsel
  end.
Qed.

End AfterSnapshot.
End Invocation.

(** C5, as the code has it. When the Cluster is not found, or its
    namespace is fetched and carries a deletion timestamp, the
    invocation is a no-op: it returns the empty result and no error,
    and neither a step of the loop nor an action runs. When the
    namespace itself cannot be fetched, not found included, the
    invocation returns that error, wrapped, and likewise runs no step
    and no action. *)
Theorem deleted_cluster_or_namespace_is_noop r req :
  ((exists err, GetCluster (api r) req = Err err /\ IsNotFound err = true)
   \/ (exists cluster namespace,
         GetCluster (api r) req = Ok cluster
         /\ GetNamespace (api r) (ReqNamespace req) = Ok namespace
         /\ IsZero (DeletionTimestamp namespace) = false) ->
   value (Reconcile r req) = (emptyResult, None)
   /\ steps (events (Reconcile r req)) = []
   /\ actions (events (Reconcile r req)) = [])
  /\ (forall cluster err,
        GetCluster (api r) req = Ok cluster ->
        GetNamespace (api r) (ReqNamespace req) = Err err ->
        value (Reconcile r req)
        = (emptyResult, Some (WrapError "cannot get the containing namespace" err))
        /\ steps (events (Reconcile r req)) = []
        /\ actions (events (Reconcile r req)) = []).
Proof.
  split.
  - intros [(err & Hget & Hnf) | (cluster & ns & Hget & Hns & Hdel)];
      unfold Reconcile; cbn; rewrite Hget; cbn.
    + rewrite Hnf. cbn. auto.
    + rewrite Hns. cbn. rewrite Hdel. cbn. auto.
  - intros cluster err Hget Hns. unfold Reconcile. cbn. rewrite Hget. cbn.
    rewrite Hns. cbn. auto.
Qed.

Lemma deleted_cluster_or_namespace_is_noop_witness :
  value (Reconcile (Samples.reconciler
                      (Samples.platform (Err Samples.notFound) (Ok Samples.liveNamespace)
                         Samples.noResources 0 Samples.succeeds))
                   Samples.request) = (emptyResult, None)
  /\ value (Reconcile (Samples.reconciler
                         (Samples.platform (Ok Samples.healthy) (Ok Samples.dyingNamespace)
                            Samples.noResources 0 Samples.succeeds))
                      Samples.request) = (emptyResult, None)
  /\ value (Reconcile (Samples.reconciler
                         (Samples.platform (Ok Samples.healthy) (Err Samples.deadline)
                            Samples.noResources 0 Samples.succeeds))
                      Samples.request)
     = (emptyResult,
        Some (WrapError "cannot get the containing namespace" Samples.deadline)).
Proof.
  split; [| split].
  - apply (proj1 (deleted_cluster_or_namespace_is_noop _ _)). left.
    exists Samples.notFound. split; reflexivity.
  - apply (proj1 (deleted_cluster_or_namespace_is_noop _ _)). right.
    exists Samples.healthy, Samples.dyingNamespace. repeat split; reflexivity.
  - apply (proj2 (deleted_cluster_or_namespace_is_noop _ _) Samples.healthy);
      reflexivity.
Defined.

(** C5, as the specification has it, fails: when the namespace of a
    fetched Cluster is itself not found, the invocation returns an
    error. *)
Lemma deleted_cluster_or_namespace_is_noop_counterexample :
  GetCluster (api (Samples.reconciler
                     (Samples.platform (Ok Samples.healthy) (Err Samples.notFound)
                        Samples.noResources 0 Samples.succeeds)))
    Samples.request = Ok Samples.healthy
  /\ GetNamespace (api (Samples.reconciler
                          (Samples.platform (Ok Samples.healthy) (Err Samples.notFound)
                             Samples.noResources 0 Samples.succeeds)))
       (ReqNamespace Samples.request) = Err Samples.notFound
  /\ IsNotFound Samples.notFound = true
  /\ Reconcile (Samples.reconciler
                  (Samples.platform (Ok Samples.healthy) (Err Samples.notFound)
                     Samples.noResources 0 Samples.succeeds))
       Samples.request
     = ([CallGetCluster Samples.request; CallGetNamespace "default"],
        (emptyResult,
         Some (WrapError "cannot get the containing namespace" Samples.notFound)))
  /\ value (Reconcile (Samples.reconciler
                         (Samples.platform (Ok Samples.healthy) (Err Samples.notFound)
                            Samples.noResources 0 Samples.succeeds))
                      Samples.request)
     ≠ (emptyResult, None).
Proof. repeat split. discriminate. Qed.

(** A namespace that cannot be fetched at all is an error of the
    invocation, whatever the reason. *)
Lemma unfetched_namespace_is_error r req cluster err :
  GetCluster (api r) req = Ok cluster ->
  GetNamespace (api r) (ReqNamespace req) = Err err ->
  value (Reconcile r req)
  = (emptyResult, Some (WrapError "cannot get the containing namespace" err)).
Proof. intros Hget Hns. unfold Reconcile. cbn. rewrite Hget. cbn. by rewrite Hns. Qed.

(** C4. When the status update fails with a conflict, the invocation
    returns the empty result and no error, right after the update; any
    other failure of the status update is returned, wrapped, as the
    error of the invocation. *)
Theorem status_conflict_is_retried r req cluster resources err :
  snapshotCollected r req cluster resources ->
  switchoverInProgress cluster = false ->
  updateResourceStatus (api r) cluster resources = Err err ->
  events (Reconcile r req) = preamble req ++ [Call_updateResourceStatus]
  /\ (IsConflict err = true -> value (Reconcile r req) = (emptyResult, None))
  /\ (IsConflict err = false ->
      value (Reconcile r req)
      = (emptyResult, Some (WrapError "cannot update the resource status" err))).
Proof.
  intros Hcol Hsw Hup.
  rewrite (Reconcile_status_failure r req cluster resources Hcol err Hsw Hup).
  split; [reflexivity |]. split; intros ->; reflexivity.
Qed.

Lemma status_conflict_is_retried_witness :
  value (Reconcile (Samples.reconciler
                      (Samples.platform (Ok Samples.healthy) (Ok Samples.liveNamespace)
                         Samples.noResources 0 (fun _ => Err Samples.conflict)))
                   Samples.request) = (emptyResult, None)
  /\ value (Reconcile (Samples.reconciler
                         (Samples.platform (Ok Samples.healthy) (Ok Samples.liveNamespace)
                            Samples.noResources 0 (fun _ => Err Samples.deadline)))
                      Samples.request)
     = (emptyResult,
        Some (WrapError "cannot update the resource status" Samples.deadline)).
Proof.
  split.
  - refine (proj1 (proj2 (status_conflict_is_retried _ Samples.request Samples.healthy
                            Samples.noResources Samples.conflict _ _ _)) _);
      try reflexivity.
    repeat split; try reflexivity. exists Samples.liveNamespace. split; reflexivity.
  - refine (proj2 (proj2 (status_conflict_is_retried _ Samples.request Samples.healthy
                            Samples.noResources Samples.deadline _ _ _)) _);
      try reflexivity.
    repeat split; try reflexivity. exists Samples.liveNamespace. split; reflexivity.
Defined.


Lemma empty_current_primary_is_no_switchover cluster :
  CurrentPrimary (Status cluster) = "" -> switchoverInProgress cluster = false.
Proof. intros Hcur. unfold switchoverInProgress. by rewrite Hcur. Qed.

(** C9. While the current primary is the empty string the loop never
    takes the switchover wait, whatever the target primary is; once the
    snapshot is collected it goes on to the status update. *)
Theorem empty_current_primary_never_waits r req cluster :
  GetCluster (api r) req = Ok cluster ->
  CurrentPrimary (Status cluster) = "" ->
(switchoverWait ∉ events (Reconcile r req))
  /\ (forall resources,
        snapshotCollected r req cluster resources ->
        Call_updateResourceStatus ∈ events (Reconcile r req)).
Proof.
  intros Hget Hcur.
  pose proof (empty_current_primary_is_no_switchover cluster Hcur) as Hsw.
  split.
  - unfold Reconcile. cbn. rewrite Hget. cbn.
    destruct (GetNamespace _ _) as [ns | err] eqn:Hns; cbn; [| absent].
    destruct (IsZero _) eqn:Hlive; cbn; [| absent].
    destruct (getManagedResources _ _) as [resources | err] eqn:Hres; cbn;
      [| absent].
    assert (snapshotCollected r req cluster resources) as Hcol
        by (repeat split; eauto).
    destruct (Reconcile_no_switchover r req cluster resources Hcol Hsw)
      as (rest & Hev & Hrest).
    unfold Reconcile in Hev. cbn in Hev. rewrite Hget in Hev. cbn in Hev.
    rewrite Hns in Hev. cbn in Hev. rewrite Hlive in Hev. cbn in Hev.
    rewrite Hres in Hev. cbn in Hev. rewrite Hev.
    repeat (apply cons_not_elem; [discriminate |]). exact Hrest.
  - intros resources Hcol.
    destruct (Reconcile_no_switchover r req cluster resources Hcol Hsw)
      as (rest & -> & _).
    unfold preamble. set_solver.
Qed.

Lemma empty_current_primary_never_waits_witness :
  TargetPrimary (Status Samples.bootstrapping) ≠ ""
  /\ switchoverWait
     ∉ events (Reconcile (Samples.reconciler (Samples.steady Samples.bootstrapping))
                         Samples.request).
Proof.
  split; [discriminate |].
  apply (empty_current_primary_never_waits _ Samples.request Samples.bootstrapping);
    reflexivity.
Defined.

(** C10, as the code has it. While a job of the Cluster is running,
    the invocation reaches neither the expectations gate nor the
    selector and takes no action. It returns the empty result and no
    error, except when the status update that comes before the job
    check fails with an error that is not a conflict: that error is
    returned, wrapped. *)
Theorem running_jobs_suspend_the_loop r req cluster resources :
  snapshotCollected r req cluster resources ->
  0 < countRunningJobs (api r) resources ->
  ((Call_SatisfiedExpectations ∉ events (Reconcile r req))
   /\ (Call_ReconcilePods ∉ events (Reconcile r req))
   /\ actions (events (Reconcile r req)) = [])
  /\ ((forall err, updateResourceStatus (api r) cluster resources = Err err ->
                   IsConflict err = true) ->
      value (Reconcile r req) = (emptyResult, None))
  /\ (switchoverInProgress cluster = true ->
      value (Reconcile r req) = (emptyResult, None))
  /\ (forall err,
        switchoverInProgress cluster = false ->
        updateResourceStatus (api r) cluster resources = Err err ->
        IsConflict err = false ->
        value (Reconcile r req)
        = (emptyResult, Some (WrapError "cannot update the resource status" err))).
Proof.
  intros Hcol Hrun.
  destruct (switchoverInProgress cluster) eqn:Hsw.
  { rewrite (Reconcile_switchover r req cluster resources Hcol Hsw).
    cbn. repeat split; try absent; try reflexivity; discriminate. }
  destruct (updateResourceStatus (api r) cluster resources) as [current | err] eqn:Hup.
  - rewrite (Reconcile_running_jobs r req cluster resources Hcol current Hsw Hup Hrun).
    cbn. repeat split; try absent; try reflexivity; discriminate.
  - rewrite (Reconcile_status_failure r req cluster resources Hcol err Hsw Hup).
    cbn. split; [repeat split; try absent; reflexivity |].
    split; [intros Hconf; by rewrite (Hconf err eq_refl) |].
    split; [discriminate |].
    intros err' _ [= <-] ->. reflexivity.
Qed.

Lemma running_jobs_suspend_the_loop_witness :
  Reconcile (Samples.reconciler
               (Samples.platform (Ok Samples.growing) (Ok Samples.liveNamespace)
                  Samples.oneJob 1 Samples.succeeds))
            Samples.request
  = (preamble Samples.request
       ++ [Call_updateResourceStatus; Call_countRunningJobs;
           LogInfo 2 "Waiting for jobs to finish"],
     (emptyResult, None))
  /\ value (Reconcile (Samples.reconciler
                        (Samples.platform (Ok Samples.growing) (Ok Samples.liveNamespace)
                           Samples.oneJob 1 Samples.succeeds))
                      Samples.request)
     = (emptyResult, None).
Proof.
  split; [reflexivity |].
  refine (proj1 (proj2 (running_jobs_suspend_the_loop _ Samples.request Samples.growing
                          Samples.oneJob _ _)) _).
  - repeat split; try reflexivity. exists Samples.liveNamespace. split; reflexivity.
  - reflexivity.
  - intros err Hfail. discriminate Hfail.
Defined.

(** C10, as the specification has it, fails: with a job running and a
    status update that runs out of time, the invocation returns that
    error, not a wait. *)
Lemma running_jobs_suspend_the_loop_counterexample :
  snapshotCollected
    (Samples.reconciler
       (Samples.platform (Ok Samples.growing) (Ok Samples.liveNamespace)
          Samples.oneJob 1 (fun _ => Err Samples.deadline)))
    Samples.request Samples.growing Samples.oneJob
  /\ 0 < countRunningJobs
           (api (Samples.reconciler
                   (Samples.platform (Ok Samples.growing) (Ok Samples.liveNamespace)
                      Samples.oneJob 1 (fun _ => Err Samples.deadline))))
           Samples.oneJob
  /\ Reconcile (Samples.reconciler
                  (Samples.platform (Ok Samples.growing) (Ok Samples.liveNamespace)
                     Samples.oneJob 1 (fun _ => Err Samples.deadline)))
       Samples.request
     = (preamble Samples.request ++ [Call_updateResourceStatus],
        (emptyResult,
         Some (WrapError "cannot update the resource status" Samples.deadline)))
  /\ value (Reconcile (Samples.reconciler
                         (Samples.platform (Ok Samples.growing) (Ok Samples.liveNamespace)
                            Samples.oneJob 1 (fun _ => Err Samples.deadline)))
                      Samples.request)
     ≠ (emptyResult, None).
Proof.
  split.
  { repeat split; try reflexivity. exists Samples.liveNamespace. split; reflexivity. }
  split; [reflexivity |]. split; [reflexivity | discriminate].
Qed.

(** C1, as the code has it. Once the snapshot is collected, the steps
    that run are an initial segment of: snapshot collection, status
    projection, topology resolution, expectations gate, action
    selection. The switchover wait is decided right after the snapshot:
    when the current primary is set and differs from the target, the
    invocation ends there, before the status update, the topology
    resolution and the expectations gate; otherwise the status update
    follows the snapshot and the wait is never taken. *)
Theorem steps_follow_the_control_flow r req cluster resources :
  snapshotCollected r req cluster resources ->
  steps (events (Reconcile r req)) `prefix_of` controlFlow
  /\ (switchoverInProgress cluster = true ->
      Reconcile r req = (preamble req ++ [switchoverWait], (emptyResult, None))
      /\ steps (events (Reconcile r req)) = [Snapshot])
  /\ (switchoverInProgress cluster = false ->
      [Snapshot; StatusProjection] `prefix_of` steps (events (Reconcile r req))
      /\ (switchoverWait ∉ events (Reconcile r req))).
Proof.
  intros Hcol. split; [by apply (Reconcile_steps_prefix r req cluster resources) |].
  split; intros Hsw.
  - rewrite (Reconcile_switchover r req cluster resources Hcol Hsw). by split.
  - destruct (Reconcile_no_switchover r req cluster resources Hcol Hsw)
      as (rest & -> & Hrest).
    split.
    + cbn. by eexists.
    + unfold preamble. cbn. repeat (apply cons_not_elem; [discriminate |]).
      exact Hrest.
Qed.

Lemma steps_follow_the_control_flow_witness :
  steps (events (Reconcile (Samples.reconciler (Samples.steady Samples.growing))
                           Samples.request))
  = controlFlow
  /\ steps (events (Reconcile (Samples.reconciler (Samples.steady Samples.growing))
                              Samples.request))
     `prefix_of` controlFlow
  /\ steps (events (Reconcile Samples.switchingReconciler Samples.request))
     = [Snapshot].
Proof.
  split; [reflexivity |]. split.
  - refine (proj1 (steps_follow_the_control_flow _ Samples.request Samples.growing
                     Samples.noResources _)).
    repeat split; try reflexivity. exists Samples.liveNamespace. split; reflexivity.
  - refine (proj2 (proj1 (proj2 (steps_follow_the_control_flow
                                   Samples.switchingReconciler Samples.request
                                   Samples.switching Samples.noResources _)) _)).
    + repeat split; try reflexivity. exists Samples.liveNamespace. split; reflexivity.
    + reflexivity.
Defined.

(** C1, as the specification has it, fails: with a pod creation still
    expected and a switchover in progress, the wait that is taken is the
    switchover wait, the expectations are never consulted, and neither
    the status update nor the topology resolution runs. *)
Lemma steps_follow_the_control_flow_counterexample :
  snapshotCollected Samples.switchingReconciler Samples.request
    Samples.switching Samples.noResources
  /\ CurrentPrimary (Status Samples.switching)
     ≠ TargetPrimary (Status Samples.switching)
  /\ SatisfiedExpectations Samples.switchingReconciler Samples.switching
       (clock (api Samples.switchingReconciler)) = false
  /\ Reconcile Samples.switchingReconciler Samples.request
     = (preamble Samples.request ++ [switchoverWait], (emptyResult, None))
  /\ (Call_SatisfiedExpectations
      ∉ events (Reconcile Samples.switchingReconciler Samples.request))
  /\ (Call_updateResourceStatus
      ∉ events (Reconcile Samples.switchingReconciler Samples.request))
  /\ (Call_updateTargetPrimaryFromPods
      ∉ events (Reconcile Samples.switchingReconciler Samples.request)).
Proof.
  split.
  { repeat split; try reflexivity. exists Samples.liveNamespace. split; reflexivity. }
  split; [discriminate |].
  split; [by vm_compute |].
  split; [reflexivity |].
  repeat split; absent.
Qed.

(** ** The selector *)

(** C2, as the code has it. With no instance and no dangling claim, the
    selector creates the first instance, returns what that call returns,
    and does nothing else. *)
Theorem no_instance_creates_the_primary r req cluster childPods instancesStatus :
  Instances (Status cluster) = 0 ->
  DanglingPVC (Status cluster) = [] ->
  ReconcilePods r req cluster childPods instancesStatus
  = ([Call_ReconcilePods; Call_createPrimaryInstance],
     createPrimaryInstance (api r) cluster).
Proof.
  intros Hinst Hdang. unfold ReconcilePods. cbn. by rewrite Hdang, Hinst.
Qed.

Lemma no_instance_creates_the_primary_witness :
  actions (events (ReconcilePods (Samples.reconciler (Samples.steady Samples.bootstrapping))
                     Samples.request Samples.bootstrapping [] []))
  = [Call_createPrimaryInstance].
Proof.
  rewrite (no_instance_creates_the_primary _ Samples.request Samples.bootstrapping [] []);
    reflexivity.
Defined.

(** C2, as the specification has it, fails: with no instance but a
    dangling claim left, the selector recreates the pod of the claim and
    does not create a first instance. *)
Lemma no_instance_creates_the_primary_counterexample :
  Instances (Status Samples.orphaned) = 0
  /\ ReconcilePods (Samples.reconciler (Samples.steady Samples.orphaned))
       Samples.request Samples.orphaned [] []
     = ([Call_ReconcilePods; Call_handleDanglingPVC], (emptyResult, None))
  /\ (Call_createPrimaryInstance
      ∉ events (ReconcilePods (Samples.reconciler (Samples.steady Samples.orphaned))
                  Samples.request Samples.orphaned [] [])).
Proof. repeat split; absent. Qed.

(** C3, as the code has it. With a dangling claim, the selector waits
    when no node maintenance window is in progress and some instance is
    not ready; otherwise it recreates the pods of the dangling claims,
    returns the error of that call, and does nothing else. Whether the
    window reuses claims plays no part. *)
Theorem dangling_claims_wait_or_recreate r req cluster childPods instancesStatus :
  DanglingPVC (Status cluster) ≠ [] ->
  (IsNodeMaintenanceWindowInProgress cluster = false ->
   ReadyInstances (Status cluster) ≠ Instances (Status cluster) ->
   ReconcilePods r req cluster childPods instancesStatus
   = ([Call_ReconcilePods;
       LogInfo 2 "Waiting for node to be ready before attaching PVCs"],
      (emptyResult, None)))
  /\ (IsNodeMaintenanceWindowInProgress cluster = true
      \/ ReadyInstances (Status cluster) = Instances (Status cluster) ->
      ReconcilePods r req cluster childPods instancesStatus
      = ([Call_ReconcilePods; Call_handleDanglingPVC],
         (emptyResult, handleDanglingPVC (api r) cluster))).
Proof.
  intros Hdang.
  assert ((0 <? Z.of_nat (length (DanglingPVC (Status cluster)))) = true) as Hlen.
  { destruct (DanglingPVC (Status cluster)); [done |]. apply Z.ltb_lt. cbn. lia. }
  split.
  - intros Hwin Hready. unfold ReconcilePods. cbn. rewrite Hlen, Hwin.
    apply Z.eqb_neq in Hready as ->. reflexivity.
  - intros [Hwin | Hready]; unfold ReconcilePods; cbn; rewrite Hlen.
    + rewrite Hwin. reflexivity.
    + apply Z.eqb_eq in Hready as ->. rewrite andb_false_r. reflexivity.
Qed.

Lemma dangling_claims_wait_or_recreate_witness :
  ReconcilePods (Samples.reconciler (Samples.steady Samples.draining))
    Samples.request Samples.draining [] []
  = ([Call_ReconcilePods; Call_handleDanglingPVC], (emptyResult, None)).
Proof.
  refine (proj2 (dangling_claims_wait_or_recreate _ Samples.request Samples.draining
                   [] [] _) _).
  - discriminate.
  - left. reflexivity.
Defined.

(** C3, as the specification has it, fails: in a maintenance window
    that does not reuse claims, with an instance that is not ready, the
    selector does not wait but recreates the pod of the dangling
    claim. *)
Lemma dangling_claims_wait_or_recreate_counterexample :
  DanglingPVC (Status Samples.draining) ≠ []
  /\ IsNodeMaintenanceWindowReusePVC Samples.draining = false
  /\ ReadyInstances (Status Samples.draining) ≠ Instances (Status Samples.draining)
  /\ ReconcilePods (Samples.reconciler (Samples.steady Samples.draining))
       Samples.request Samples.draining [] []
     = ([Call_ReconcilePods; Call_handleDanglingPVC], (emptyResult, None)).
Proof. repeat split; discriminate. Qed.




End ReconcileFacts.

(** ** The expectation tracker *)

Module ExpectationFacts.
Import Expectations.

Lemma pending_ExpectCreations c key n issued now :
  pending (ExpectCreations c key n issued) key now
  = if ttl c <? now - issued then (0, 0)%nat
    else ((pending c key issued).1 + n, (pending c key issued).2)%nat.
Proof.
  unfold ExpectCreations. destruct (pending c key issued) as [adds dels].
  unfold pending at 1. cbn. rewrite lookup_insert_eq. reflexivity.
Qed.

Lemma unsatisfied_after_ExpectCreations c key n issued now :
  (0 < n)%nat -> now - issued <= ttl c ->
  SatisfiedExpectations (ExpectCreations c key n issued) key now = false.
Proof.
  intros Hn Hlive. unfold SatisfiedExpectations.
  rewrite pending_ExpectCreations.
  destruct (Z.ltb_spec (ttl c) (now - issued)); [lia |].
  destruct (pending c key issued) as [adds dels]. cbn.
  destruct (adds + n)%nat eqn:Hsum; [lia | reflexivity].
Qed.

Lemma satisfied_after_expiry c key n issued now :
  ttl c < now - issued ->
  SatisfiedExpectations (ExpectCreations c key n issued) key now = true.
Proof.
  intros Hold. unfold SatisfiedExpectations. rewrite pending_ExpectCreations.
  apply Z.ltb_lt in Hold. by rewrite Hold.
Qed.

Lemma satisfied_after_ObserveCreation c key issued now :
  SatisfiedExpectations c key issued = true ->
  SatisfiedExpectations (ObserveCreation (ExpectCreations c key 1 issued) key) key now
  = true.
Proof.
  unfold SatisfiedExpectations at 1. intros Hbefore.
  destruct (pending c key issued) as [adds dels] eqn:Hpending.
  apply andb_true_iff in Hbefore as [->%Nat.eqb_eq ->%Nat.eqb_eq].
  unfold SatisfiedExpectations, ObserveCreation, ExpectCreations, pending at 1.
  rewrite Hpending. cbn. rewrite lookup_alter_eq, lookup_insert_eq. cbn.
  by destruct (isExpired _ _ _).
Qed.

(** Time does not undo satisfaction: zero stays zero, expired stays
    expired. *)
Lemma satisfied_later c key earlier later :
  earlier <= later ->
  SatisfiedExpectations c key earlier = true ->
  SatisfiedExpectations c key later = true.
Proof.
  intros Hle. unfold SatisfiedExpectations, pending.
  destruct (store c !! key) as [e |]; [| done].
  unfold isExpired.
  destruct (Z.ltb_spec (ttl c) (earlier - stamp e)),
           (Z.ltb_spec (ttl c) (later - stamp e)); try done; lia.
Qed.


Section Gate.
Import Controllers.
Variable r : ClusterReconciler.
Variable cluster : Cluster.

Lemma gate_is_conjunction now :
  Controllers.SatisfiedExpectations r cluster now
  = Expectations.SatisfiedExpectations (podExpectations r) (KeyFunc cluster) now
    && Expectations.SatisfiedExpectations (jobExpectations r) (KeyFunc cluster) now
    && Expectations.SatisfiedExpectations (pvcExpectations r) (KeyFunc cluster) now.
Proof.
  unfold Controllers.SatisfiedExpectations.
  by destruct (Expectations.SatisfiedExpectations (podExpectations r) _ _),
              (Expectations.SatisfiedExpectations (jobExpectations r) _ _),
              (Expectations.SatisfiedExpectations (pvcExpectations r) _ _).
Qed.

End Gate.

(** C6. The reconciler's expectations are satisfied exactly when the
    pod, the job and the claim tracker are each satisfied for the key of
    the Cluster, so one unsatisfied kind is enough to hold the gate.
    After the creation of one pod is expected, the gate stays closed
    for as long as the time-to-live has not elapsed since; it opens
    again once the creation is observed, if it was open when the
    creation was issued, and the pod tracker stops holding it once the
    time-to-live has elapsed. *)
Theorem expectations_gate (r : Controllers.ClusterReconciler)
  (cluster : Controllers.Cluster) (now : Z) :
  let key := Controllers.KeyFunc cluster in
  (Controllers.SatisfiedExpectations r cluster now = true
   <-> SatisfiedExpectations (Controllers.podExpectations r) key now = true
       /\ SatisfiedExpectations (Controllers.jobExpectations r) key now = true
       /\ SatisfiedExpectations (Controllers.pvcExpectations r) key now = true)
  /\ (SatisfiedExpectations (Controllers.podExpectations r) key now = false
      \/ SatisfiedExpectations (Controllers.jobExpectations r) key now = false
      \/ SatisfiedExpectations (Controllers.pvcExpectations r) key now = false ->
      Controllers.SatisfiedExpectations r cluster now = false)
  /\ (forall issued,
        now - issued <= ttl (Controllers.podExpectations r) ->
        Controllers.SatisfiedExpectations
          (Controllers.ExpectCreations r key Controllers.PodKind 1 issued)
          cluster now = false)
  /\ (forall issued,
        issued <= now ->
        Controllers.SatisfiedExpectations r cluster issued = true ->
        Controllers.SatisfiedExpectations
          (Controllers.ObserveCreation
             (Controllers.ExpectCreations r key Controllers.PodKind 1 issued)
             key Controllers.PodKind)
          cluster now = true)
  /\ (forall issued,
        ttl (Controllers.podExpectations r) < now - issued ->
        Controllers.SatisfiedExpectations
          (Controllers.ExpectCreations r key Controllers.PodKind 1 issued)
          cluster now
        = SatisfiedExpectations (Controllers.jobExpectations r) key now
          && SatisfiedExpectations (Controllers.pvcExpectations r) key now).
Proof.
  intros key. subst key.
  split; [| split; [| split; [| split]]].
  - rewrite gate_is_conjunction. rewrite !andb_true_iff. tauto.
  - rewrite gate_is_conjunction.
    intros [-> | [-> | ->]]; rewrite ?andb_false_r; done.
  - intros issued Hlive. rewrite gate_is_conjunction. cbn.
    by rewrite unsatisfied_after_ExpectCreations by (done || lia).
  - intros issued Hle. rewrite !gate_is_conjunction. cbn.
    intros [[Hpod Hjob]%andb_true_iff Hpvc]%andb_true_iff.
    rewrite satisfied_after_ObserveCreation by done.
    rewrite (satisfied_later _ _ issued now Hle Hjob).
    by rewrite (satisfied_later _ _ issued now Hle Hpvc).
  - intros issued Hold. rewrite gate_is_conjunction. cbn.
    by rewrite satisfied_after_expiry.
Qed.

(** The gate on a reconciler with nothing in flight: closed one minute
    after a pod creation was issued, open once it is observed, open six
    minutes after it was issued even if it never is. *)
Lemma expectations_gate_witness :
  Controllers.SatisfiedExpectations
    (Controllers.ExpectCreations (Samples.reconciler (Samples.steady Samples.growing))
       (Controllers.KeyFunc Samples.growing) Controllers.PodKind 1 0)
    Samples.growing 60 = false
  /\ Controllers.SatisfiedExpectations
       (Controllers.ObserveCreation
          (Controllers.ExpectCreations (Samples.reconciler (Samples.steady Samples.growing))
             (Controllers.KeyFunc Samples.growing) Controllers.PodKind 1 0)
          (Controllers.KeyFunc Samples.growing) Controllers.PodKind)
       Samples.growing 60 = true
  /\ Controllers.SatisfiedExpectations
       (Controllers.ExpectCreations (Samples.reconciler (Samples.steady Samples.growing))
          (Controllers.KeyFunc Samples.growing) Controllers.PodKind 1 0)
       Samples.growing 360 = true.
Proof.
  pose proof (expectations_gate (Samples.reconciler (Samples.steady Samples.growing))
                Samples.growing 60) as (_ & _ & Hclosed & Hobserved & _).
  pose proof (expectations_gate (Samples.reconciler (Samples.steady Samples.growing))
                Samples.growing 360) as (_ & _ & _ & _ & Hexpired).
  split; [| split].
  - apply Hclosed. by vm_compute.
  - apply Hobserved; [lia | by vm_compute].
  - rewrite Hexpired; [by vm_compute | by vm_compute].
Defined.

End ExpectationFacts.

(** ** The WAL archiver *)

Module WalArchiveFacts.
Import WalArchive.

(** What "at least 2.13" means for a semantic version: a later major
    or minor version, or 2.13 itself in a later patch or as a release
    that is not a pre-release. *)
Lemma GE_2_13_numbers (v : Semver.Version) :
  Semver.GE v version213 = true
  <-> (2 < Semver.Major v)%N
      \/ (Semver.Major v = 2%N /\ (13 < Semver.Minor v)%N)
      \/ (Semver.Major v = 2%N /\ Semver.Minor v = 13%N
          /\ ((0 < Semver.Patch v)%N \/ Semver.Pre v = [])).
Proof.
  unfold Semver.GE, Semver.Compare. cbn.
  destruct (N.eqb_spec (Semver.Major v) 2) as [Hmajor | Hmajor]; cbn.
  - destruct (N.eqb_spec (Semver.Minor v) 13) as [Hminor | Hminor]; cbn.
    + destruct (N.eqb_spec (Semver.Patch v) 0) as [Hpatch | Hpatch]; cbn.
      * destruct (Semver.Pre v) as [| tag tags]; cbn.
        -- split; [intros _; right; right; auto | reflexivity].
        -- split; [discriminate |].
           intros [? | [[_ ?] | (_ & _ & [? | ?])]]; [lia | lia | lia | discriminate].
      * destruct (N.ltb_spec 0 (Semver.Patch v)); [| lia]. cbn.
        split; [intros _; right; right; auto | reflexivity].
    + destruct (N.ltb_spec 13 (Semver.Minor v)); cbn.
      * split; [intros _; right; left; auto | reflexivity].
      * split; [discriminate |]. intros [? | [[_ ?] | (_ & ? & _)]]; lia.
  - destruct (N.ltb_spec 2 (Semver.Major v)); cbn.
    + split; [intros _; left; auto | reflexivity].
    + split; [discriminate |]. intros [? | [[? _] | (? & _)]]; lia.
Qed.

Section Options.
Variable configuration : BarmanObjectStoreConfiguration.
Variables clusterName walName : string.
Variable version : option Semver.Version.

Lemma optionsOf_azure_rejected credentials :
  Azure configuration = Some credentials ->
  barmanCloudVersionGE213 version = false ->
  optionsOf configuration clusterName walName version
  = ([], Some (azureNeedsBarman213 version)).
Proof. intros Haz Hold. unfold optionsOf. by rewrite Hold, Haz. Qed.

Lemma optionsOf_azure_flag credentials :
  Azure configuration = Some credentials ->
  barmanCloudVersionGE213 version = true ->
  exists before after,
    optionsOf configuration clusterName walName version
    = (before ++ ["--cloud-provider"; "azure-blob-storage"] ++ after, None).
Proof.
  intros Haz Hnew. unfold optionsOf. rewrite Hnew, Haz.
  match goal with
  | |- ∃ _ _, ((?x ++ _) ++ ?tail, _) = _ => exists x, tail
  end.
  by rewrite <- app_assoc.
Qed.

Lemma optionsOf_s3_flag credentials :
  S3 configuration = Some credentials ->
  barmanCloudVersionGE213 version = true ->
  exists before after,
    optionsOf configuration clusterName walName version
    = (before ++ ["--cloud-provider"; "aws-s3"] ++ after, None).
Proof.
  intros Hs3 Hnew. unfold optionsOf. rewrite Hnew, Hs3.
  destruct (Azure configuration).
  - match goal with
    | |- ∃ _ _, (((?x ++ _) ++ ?azure) ++ ?tail, _) = _ => exists x, (azure ++ tail)
    end.
    by rewrite <- !app_assoc.
  - match goal with
    | |- ∃ _ _, ((?x ++ _) ++ ?tail, _) = _ => exists x, tail
    end.
    by rewrite <- app_assoc.
Qed.

End Options.

(** Once the options are refused, [run] returns their error without
    starting the tool. *)
Lemma run_rejected w namespace clusterName walName cluster configuration err :
  GetCluster w namespace clusterName = Ok cluster ->
  Backup cluster ≫= BarmanObjectStore = Some configuration ->
  optionsOf configuration clusterName walName
    (GetBarmanCloudVersion w barmanCloudWalArchiveName).1 = ([], Some err) ->
  forallb (fun e => negb (isExec e)) (events (run w namespace clusterName walName)) = true
  /\ exists failure, value (run w namespace clusterName walName) = Returns (Some failure)
     /\ (NewControllerRuntimeClient w = None -> failure = err).
Proof.
  intros Hget Hconf Hopt. unfold run. cbn.
  destruct (NewControllerRuntimeClient w) as [broken |]; cbn.
  { split; [reflexivity |]. exists broken. split; [reflexivity | discriminate]. }
  rewrite Hget. cbn. rewrite Hconf. cbn.
  unfold barmanCloudWalArchiveOptions.
  destruct (Backup cluster) as [backup |]; [| discriminate].
  cbn in Hconf. rewrite Hconf.
  destruct (GetBarmanCloudVersion w barmanCloudWalArchiveName) as [version probe].
  cbn in Hopt. rewrite Hopt.
  destruct probe; cbn; (split; [reflexivity |]); exists err; done.
Qed.

(** C8. With Azure credentials in the object store, a version of the
    tool that is unknown or below 2.13 makes
    [barmanCloudWalArchiveOptions] return no option and an error that
    names the requirement and the version found, and [run] returns an
    error without ever starting the tool; with a version of at least
    2.13 the options carry the cloud-provider flag of each configured
    provider and no error is returned. *)
Theorem azure_needs_barman_2_13 w namespace clusterName walName cluster backup
  configuration credentials :
  Backup cluster = Some backup ->
  BarmanObjectStore backup = Some configuration ->
  Azure configuration = Some credentials ->
  (forall version,
     barmanCloudVersionGE213 version = false ->
     barmanCloudWalArchiveOptions cluster clusterName walName version
     = Returns ([], Some (azureNeedsBarman213 version)))
  /\ barmanCloudVersionGE213 None = false
  /\ (GetCluster w namespace clusterName = Ok cluster ->
      barmanCloudVersionGE213 (GetBarmanCloudVersion w barmanCloudWalArchiveName).1
      = false ->
      forallb (fun e => negb (isExec e)) (events (run w namespace clusterName walName))
      = true
      /\ exists failure,
           value (run w namespace clusterName walName) = Returns (Some failure)
           /\ (NewControllerRuntimeClient w = None ->
               failure = azureNeedsBarman213
                           (GetBarmanCloudVersion w barmanCloudWalArchiveName).1))
  /\ (forall version,
        barmanCloudVersionGE213 version = true ->
        (exists before after,
           barmanCloudWalArchiveOptions cluster clusterName walName version
           = Returns (before ++ ["--cloud-provider"; "azure-blob-storage"] ++ after,
                      None))
        /\ (forall s3, S3 configuration = Some s3 ->
            exists before after,
              barmanCloudWalArchiveOptions cluster clusterName walName version
              = Returns (before ++ ["--cloud-provider"; "aws-s3"] ++ after, None))).
Proof.
  intros Hbackup Hstore Hazure.
  unfold barmanCloudWalArchiveOptions. rewrite Hbackup, Hstore.
  split; [| split; [reflexivity | split]].
  - intros version Hold.
    by rewrite (optionsOf_azure_rejected _ _ _ _ credentials Hazure Hold).
  - intros Hget Hold.
    apply (run_rejected w namespace clusterName walName cluster configuration).
    + exact Hget.
    + by rewrite Hbackup.
    + by apply (optionsOf_azure_rejected _ _ _ _ credentials).
  - intros version Hnew. split.
    + destruct (optionsOf_azure_flag configuration clusterName walName version
                  credentials Hazure Hnew) as (before & after & ->).
      by exists before, after.
    + intros s3 Hs3.
      destruct (optionsOf_s3_flag configuration clusterName walName version
                  s3 Hs3 Hnew) as (before & after & ->).
      by exists before, after.
Qed.

(** Barman 2.12 and an unknown version are refused with the message
    that names them; barman 2.13 gets the Azure flag. *)
Lemma azure_needs_barman_2_13_witness :
  barmanCloudWalArchiveOptions azureCluster "cluster-example" "000000010000000000000001"
    (Some (release 2 12 0))
  = Returns ([], Some (ErrorString
                         "barman >= 2.13 is required to use Azure object storage, current: 2.12.0"))
  /\ barmanCloudWalArchiveOptions azureCluster "cluster-example" "000000010000000000000001"
       None
     = Returns ([], Some (ErrorString
                            "barman >= 2.13 is required to use Azure object storage, current: <nil>"))
  /\ barmanCloudWalArchiveOptions azureCluster "cluster-example" "000000010000000000000001"
       (Some (release 2 13 0))
     = Returns (["--gzip"; "--cloud-provider"; "azure-blob-storage";
                 "https://account.blob.core.windows.net/backups";
                 "cluster-example"; "000000010000000000000001"], None).
Proof.
  pose proof (azure_needs_barman_2_13 (installation None) "default" "cluster-example"
                "000000010000000000000001" azureCluster
                {| BarmanObjectStore := Some azureStore |} azureStore
                {| AzureSecret := "azure-creds" |} eq_refl eq_refl eq_refl)
    as (Hrejected & _ & _ & _).
  split; [| split].
  - exact (Hrejected (Some (release 2 12 0)) eq_refl).
  - exact (Hrejected None eq_refl).
  - reflexivity.
Defined.

End WalArchiveFacts.

(** ** The selector, rule by rule *)

Module SelectorFacts.
Import Controllers Steps.

Section Selector.
Variable r : ClusterReconciler.
Variable req : Request.
Variable cluster : Cluster.
Variable childPods : list Pod.
Variable instancesStatus : PostgresqlStatusList.

(** The tests of the selector as propositions. *)
Ltac tests :=
  repeat match goal with
         | H : (_ && _) = true |- _ => apply andb_true_iff in H as [? ?]
         | H : (_ && _) = false |- _ => apply andb_false_iff in H as [? | ?]
         | H : negb _ = true |- _ => apply negb_true_iff in H
         | H : negb _ = false |- _ => apply negb_false_iff in H
         | H : (_ =? _) = true |- _ => apply Z.eqb_eq in H
         | H : (_ =? _) = false |- _ => apply Z.eqb_neq in H
         | H : (_ <? _) = true |- _ => apply Z.ltb_lt in H
         | H : (_ <? _) = false |- _ => apply Z.ltb_ge in H
         end.

Ltac table :=
  unfold ReconcilePods, IsNodeMaintenanceWindowInProgress,
    IsNodeMaintenanceWindowReusePVC;
  cbn;
  destruct (DanglingPVC (Status cluster)) as [| claim claims] eqn:Hdangling; cbn;
  split_run; tests.

(** One invocation of the selector takes at most one action. *)
Lemma ReconcilePods_at_most_one_action :
  (length (actions (events (ReconcilePods r req cluster childPods instancesStatus))) <= 1)%nat.
Proof. table; cbn; lia. Qed.

(** X1. The first instance is created exactly when there is neither a
    dangling claim nor an instance. *)
Theorem primary_created_only_from_nothing :
  actions (events (ReconcilePods r req cluster childPods instancesStatus)) = [Call_createPrimaryInstance]
  <-> DanglingPVC (Status cluster) = [] /\ Instances (Status cluster) = 0.
Proof.
  table; cbn; (split; [intros Hact | intros [Hnone Hzero]]);
    try discriminate; try done; try lia.
Qed.

(** X2. A replica is joined exactly when there is no dangling claim, at
    least one instance, fewer instances than the spec asks for, all of
    them ready, and a serial could be generated; it is joined under
    that serial. *)
Theorem replica_joined_only_when_all_ready (serial : Z) :
  actions (events (ReconcilePods r req cluster childPods instancesStatus)) = [Call_joinReplicaInstance serial]
  <-> DanglingPVC (Status cluster) = []
      /\ Instances (Status cluster) ≠ 0
      /\ Instances (Status cluster) < SpecInstances (Spec cluster)
      /\ ReadyInstances (Status cluster) = Instances (Status cluster)
      /\ exists cluster', generateNodeSerial (api r) cluster = Ok (serial, cluster').
Proof.
  table; cbn;
    (split; [intros Hact | intros (Hnone & Hsome & Hfew & Hready & cluster' & Hserial)]);
    try discriminate; try done; try lia.
  all: try congruence.
  all: injection Hact as ->; repeat split; try done; try lia; by eexists.
Qed.

(** X3. One instance is removed exactly when there is no dangling
    claim, more instances than the spec asks for, and either all of
    them are ready or a maintenance window reuses the claims. *)
Theorem scale_down_only_when_oversized :
  actions (events (ReconcilePods r req cluster childPods instancesStatus)) = [Call_scaleDownCluster]
  <-> DanglingPVC (Status cluster) = []
      /\ SpecInstances (Spec cluster) < Instances (Status cluster)
      /\ Instances (Status cluster) ≠ 0
      /\ (IsNodeMaintenanceWindowReusePVC cluster = true
          \/ Instances (Status cluster) <= ReadyInstances (Status cluster)).
Proof.
  unfold IsNodeMaintenanceWindowReusePVC.
  table; cbn; (split; [intros Hact | intros (Hnone & Hmany & Hsome & Hwait)]);
    try discriminate; try done; try lia;
    try (repeat split; try done; try lia; (by left) || (right; lia));
    try (destruct Hwait; congruence || lia).
Qed.

(** X4. The rolling upgrade is looked at exactly when there is no
    dangling claim, every instance is ready, their number is the one of
    the spec and not zero, and the healthy phase could be registered. *)
Theorem upgrade_only_when_healthy :
  actions (events (ReconcilePods r req cluster childPods instancesStatus)) = [Call_upgradeCluster]
  <-> DanglingPVC (Status cluster) = []
      /\ Instances (Status cluster) ≠ 0
      /\ ReadyInstances (Status cluster) = Instances (Status cluster)
      /\ Instances (Status cluster) = SpecInstances (Spec cluster)
      /\ exists registered, RegisterPhase (api r) cluster PhaseHealthy "" = Ok registered.
Proof.
  table; cbn;
    (split; [intros Hact | intros (Hnone & Hsome & Hready & Hsize & registered & Hphase)]);
    try discriminate; try done; try lia.
  repeat split; try done. by eexists.
Qed.

(** X5. When the healthy phase cannot be registered, the selector
    returns that error as it is and does not look at the upgrade. *)
Theorem unregistered_phase_skips_the_upgrade err :
  DanglingPVC (Status cluster) = [] ->
  Instances (Status cluster) ≠ 0 ->
  ReadyInstances (Status cluster) = Instances (Status cluster) ->
  Instances (Status cluster) = SpecInstances (Spec cluster) ->
  RegisterPhase (api r) cluster PhaseHealthy "" = Err err ->
  ReconcilePods r req cluster childPods instancesStatus
  = ([Call_ReconcilePods; Call_RegisterPhase PhaseHealthy],
              (emptyResult, Some err)).
Proof.
  intros Hnone Hsome Hready Hsize Hphase.
  unfold ReconcilePods. cbn. rewrite Hnone. cbn.
  apply Z.eqb_neq in Hsome as ->. apply Z.eqb_eq in Hready as ->.
  apply Z.eqb_eq in Hsize as ->. cbn. by rewrite Hphase.
Qed.

(** X6. The selector waits, without any action and without error, when
    there is no dangling claim, some instance is not ready and no
    maintenance window reuses the claims. *)
Theorem unready_instance_is_waited_for :
  DanglingPVC (Status cluster) = [] ->
  ReadyInstances (Status cluster) < Instances (Status cluster) ->
  Instances (Status cluster) ≠ 0 ->
  IsNodeMaintenanceWindowReusePVC cluster = false ->
  ReconcilePods r req cluster childPods instancesStatus
  = ([Call_ReconcilePods; LogInfo 2 "Waiting for Pod to be ready"],
              (emptyResult, None)).
Proof.
  intros Hnone Hunready Hsome Hwindow.
  unfold ReconcilePods. cbn. rewrite Hnone, Hwindow. cbn.
  apply Z.eqb_neq in Hsome as ->.
  assert ((ReadyInstances (Status cluster) =? Instances (Status cluster)) = false)
    as -> by (apply Z.eqb_neq; lia).
  apply Z.ltb_lt in Hunready as ->. reflexivity.
Qed.

(** The selector passes on the answer of the creation of the first
    instance and of the joining of a replica, and returns the empty
    result on every other path. *)
Lemma ReconcilePods_requeue :
  (actions (events (ReconcilePods r req cluster childPods instancesStatus))
   = [Call_createPrimaryInstance] ->
   value (ReconcilePods r req cluster childPods instancesStatus)
   = createPrimaryInstance (api r) cluster)
  /\ (forall serial,
        actions (events (ReconcilePods r req cluster childPods instancesStatus))
        = [Call_joinReplicaInstance serial] ->
        exists joined,
          generateNodeSerial (api r) cluster = Ok (serial, joined)
          /\ value (ReconcilePods r req cluster childPods instancesStatus)
             = joinReplicaInstance (api r) serial joined)
  /\ (actions (events (ReconcilePods r req cluster childPods instancesStatus))
      ≠ [Call_createPrimaryInstance] ->
      (forall serial,
         actions (events (ReconcilePods r req cluster childPods instancesStatus))
         ≠ [Call_joinReplicaInstance serial]) ->
      (value (ReconcilePods r req cluster childPods instancesStatus)).1 = emptyResult).
Proof.
  table; cbn; try done; (split; [| split]);
    try (intros Hact; discriminate Hact);
    try (intros serial Hact; discriminate Hact);
    try (intros _ _; reflexivity);
    try (intros _; reflexivity);
    try (intros serial [= <-]; eexists; split; reflexivity);
    try (intros Hnot _; exfalso; apply Hnot; reflexivity);
    try (intros _ Hnot; exfalso; eapply Hnot; reflexivity).
Qed.

End Selector.

Lemma unregistered_phase_skips_the_upgrade_witness :
  ReconcilePods (Samples.reconciler MoreSamples.unwritablePhase) Samples.request
    Samples.healthy [] []
  = ([Call_ReconcilePods; Call_RegisterPhase PhaseHealthy],
     (emptyResult, Some Samples.conflict)).
Proof.
  apply (unregistered_phase_skips_the_upgrade _ Samples.request Samples.healthy [] []
           Samples.conflict); try reflexivity.
  discriminate.
Defined.

Lemma unready_instance_is_waited_for_witness :
  ReconcilePods (Samples.reconciler (Samples.steady MoreSamples.starting))
    Samples.request MoreSamples.starting [] []
  = ([Call_ReconcilePods; LogInfo 2 "Waiting for Pod to be ready"],
     (emptyResult, None)).
Proof.
  apply (unready_instance_is_waited_for _ Samples.request MoreSamples.starting [] []);
    try reflexivity.
  discriminate.
Defined.

End SelectorFacts.

(** ** The loop, path by path *)

Module LoopFacts.
Import Controllers Steps Flow.

#[local] Arguments ReconcilePods : simpl never.

Section Paths.
Variable r : ClusterReconciler.
Variable req : Request.

(** Every invocation either stops before the expectations gate, without
    any action and with the empty result, or gets to the gate and then
    does what the gate and the selector say. *)
Lemma Reconcile_cases :
  (actions (events (Reconcile r req)) = []
   /\ (Call_SatisfiedExpectations ∉ events (Reconcile r req))
   /\ (Call_ReconcilePods ∉ events (Reconcile r req))
   /\ (value (Reconcile r req)).1 = emptyResult)
  \/ (exists resources instancesStatus labelled,
        reachesGate r req resources instancesStatus labelled
        /\ Reconcile r req
           = if SatisfiedExpectations r labelled (clock (api r))
             then (gatePrefix req
                     ++ events (ReconcilePods r req labelled (pods resources)
                                  instancesStatus),
                   value (ReconcilePods r req labelled (pods resources)
                            instancesStatus))
             else (gatePrefix req ++ [expectationsWait], (emptyResult, None))).
Proof.
  unfold Reconcile. cbn.
  destruct (GetCluster (api r) req) as [cluster | err] eqn:Hget; cbn.
  2: { left. destruct (IsNotFound err); cbn; repeat split; absent. }
  destruct (GetNamespace (api r) (ReqNamespace req)) as [ns | err] eqn:Hns; cbn.
  2: { left. repeat split; absent. }
  destruct (IsZero (DeletionTimestamp ns)) eqn:Hlive; cbn.
  2: { left. repeat split; absent. }
  destruct (getManagedResources (api r) cluster) as [resources | err] eqn:Hres; cbn.
  2: { left. repeat split; absent. }
  destruct (switchoverInProgress cluster) eqn:Hsw; cbn.
  { left. repeat split; absent. }
  destruct (updateResourceStatus (api r) cluster resources) as [current | err]
    eqn:Hup; cbn.
  2: { left. destruct (IsConflict err); cbn; repeat split; absent. }
  destruct (0 <? countRunningJobs (api r) resources) eqn:Hjobs; cbn.
  { left. repeat split; absent. }
  destruct (createPostgresClusterObjects (api r) current) as [prepared | err]
    eqn:Hobj; cbn.
  2: { left. repeat split; absent. }
  destruct (getStatusFromInstances (api r) (pods resources))
    as [instancesStatus | err] eqn:Hrep; cbn.
  2: { left. repeat split; absent. }
  destruct (updateTargetPrimaryFromPods (api r) prepared instancesStatus)
    as [elected | err] eqn:Htop; cbn.
  2: { left. repeat split; absent. }
  destruct (updateLabelsOnPods (api r) elected (pods resources))
    as [labelled | err] eqn:Hlab; cbn.
  2: { left. repeat split; absent. }
  right. exists resources, instancesStatus, labelled. split.
  { exists cluster, current, prepared, elected.
    apply Z.ltb_ge in Hjobs. repeat split; eauto. }
  destruct (SatisfiedExpectations r labelled (clock (api r))); cbn; [| reflexivity].
  by destruct (ReconcilePods r req labelled (pods resources) instancesStatus).
Qed.

Lemma actions_gatePrefix trace :
  actions (gatePrefix req ++ trace) = actions trace.
Proof. unfold actions. by rewrite filter_app. Qed.

End Paths.

(** X7. One invocation of the loop takes at most one action on pods,
    jobs or claims, and so does one invocation of the selector. *)
Theorem at_most_one_action_per_invocation r req :
  (length (actions (events (Reconcile r req))) <= 1)%nat
  /\ forall cluster childPods instancesStatus,
       (length (actions (events (ReconcilePods r req cluster childPods
                                   instancesStatus))) <= 1)%nat.
Proof.
  split; [| intros; apply SelectorFacts.ReconcilePods_at_most_one_action].
  destruct (Reconcile_cases r req)
    as [(-> & _) | (resources & instancesStatus & labelled & _ & ->)];
    [cbn; lia |].
  destruct (SatisfiedExpectations _ _ _); cbn [events fst];
    rewrite actions_gatePrefix.
  - apply SelectorFacts.ReconcilePods_at_most_one_action.
  - vm_compute. lia.
Qed.

(** X8. An action is taken only by the selector, behind an open
    expectations gate: the invocation has collected its snapshot, found
    no switchover in progress and no running job, every collaborator on
    the way has succeeded, and the expectations of the Cluster as they
    left it are satisfied. *)
Theorem actions_are_taken_behind_the_gate r req :
  actions (events (Reconcile r req)) ≠ [] ->
  exists resources instancesStatus labelled,
    reachesGate r req resources instancesStatus labelled
    /\ SatisfiedExpectations r labelled (clock (api r)) = true
    /\ actions (events (Reconcile r req))
       = actions (events (ReconcilePods r req labelled (pods resources)
                            instancesStatus)).
Proof.
  intros Hacted.
  destruct (Reconcile_cases r req)
    as [(Hnone & _) | (resources & instancesStatus & labelled & Hgate & Hrun)];
    [done |].
  exists resources, instancesStatus, labelled. split; [done |].
  rewrite Hrun in *.
  destruct (SatisfiedExpectations r labelled (clock (api r)));
    cbn [events fst] in *; rewrite actions_gatePrefix in *; [| done].
  split; [done |]. reflexivity.
Qed.

Lemma actions_are_taken_behind_the_gate_witness :
  actions (events (Reconcile (Samples.reconciler (Samples.steady Samples.growing))
                             Samples.request))
  = [Call_joinReplicaInstance 2]
  /\ exists resources instancesStatus labelled,
       reachesGate (Samples.reconciler (Samples.steady Samples.growing))
         Samples.request resources instancesStatus labelled
       /\ SatisfiedExpectations (Samples.reconciler (Samples.steady Samples.growing))
            labelled (clock (api (Samples.reconciler (Samples.steady Samples.growing))))
          = true.
Proof.
  split; [reflexivity |].
  destruct (actions_are_taken_behind_the_gate
              (Samples.reconciler (Samples.steady Samples.growing)) Samples.request)
    as (resources & instancesStatus & labelled & Hgate & Hopen & _);
    [discriminate |].
  by exists resources, instancesStatus, labelled.
Defined.

(** X9. While the expectations are not satisfied, an invocation that
    gets to the gate waits: it logs the wait, returns the empty result
    and no error, and the selector is not entered. *)
Theorem closed_gate_is_a_wait r req resources instancesStatus labelled :
  reachesGate r req resources instancesStatus labelled ->
  SatisfiedExpectations r labelled (clock (api r)) = false ->
  Reconcile r req = (gatePrefix req ++ [expectationsWait], (emptyResult, None)).
Proof.
  intros (cluster & current & prepared & elected
          & ((Hget & (ns & Hns & Hlive) & Hres) & Hsw & Hup)
          & Hjobs & Hobj & Hrep & Htop & Hlab) Hclosed.
  apply Z.ltb_ge in Hjobs.
  unfold Reconcile. cbn. rewrite Hget, Hns. cbn. rewrite Hlive. cbn.
  rewrite Hres. cbn. rewrite Hsw. cbn. rewrite Hup. cbn. rewrite Hjobs. cbn.
  rewrite Hobj. cbn. rewrite Hrep. cbn. rewrite Htop. cbn. rewrite Hlab. cbn.
  by rewrite Hclosed.
Qed.

Lemma closed_gate_is_a_wait_witness :
  Reconcile (Samples.reconcilerAwaitingPod (Samples.steady Samples.growing))
    Samples.request
  = (gatePrefix Samples.request ++ [expectationsWait], (emptyResult, None)).
Proof.
  apply (closed_gate_is_a_wait _ _ Samples.noResources [] Samples.growing).
  - exists Samples.growing, Samples.growing, Samples.growing, Samples.growing.
    repeat split; try reflexivity; try (by vm_compute).
    exists Samples.liveNamespace. split; reflexivity.
  - by vm_compute.
Defined.

(** X10. Behind an open gate the invocation is the selector's: it
    returns what the selector returns, and the selector decides on the
    Cluster as the status update, the auxiliary objects, the topology
    resolution and the labelling left it, with the pods of the
    snapshot. *)
Theorem open_gate_hands_over_to_the_selector r req resources instancesStatus
  labelled :
  reachesGate r req resources instancesStatus labelled ->
  SatisfiedExpectations r labelled (clock (api r)) = true ->
  Reconcile r req
  = (gatePrefix req
       ++ events (ReconcilePods r req labelled (pods resources) instancesStatus),
     value (ReconcilePods r req labelled (pods resources) instancesStatus)).
Proof.
  intros (cluster & current & prepared & elected
          & ((Hget & (ns & Hns & Hlive) & Hres) & Hsw & Hup)
          & Hjobs & Hobj & Hrep & Htop & Hlab) Hopen.
  apply Z.ltb_ge in Hjobs.
  unfold Reconcile. cbn. rewrite Hget, Hns. cbn. rewrite Hlive. cbn.
  rewrite Hres. cbn. rewrite Hsw. cbn. rewrite Hup. cbn. rewrite Hjobs. cbn.
  rewrite Hobj. cbn. rewrite Hrep. cbn. rewrite Htop. cbn. rewrite Hlab. cbn.
  rewrite Hopen.
  by destruct (ReconcilePods r req labelled (pods resources) instancesStatus).
Qed.

(** X11. The loop passes on the answer of the creation of the first
    instance and of the joining of a replica: when one of them is the
    action taken, what the invocation returns, result and error, is
    what that call returned for the Cluster at the gate. On every other
    path the result is the empty one. *)
Theorem requeue_only_by_delegation r req :
  (actions (events (Reconcile r req)) = [Call_createPrimaryInstance] ->
   exists resources instancesStatus labelled,
     reachesGate r req resources instancesStatus labelled
     /\ value (Reconcile r req) = createPrimaryInstance (api r) labelled)
  /\ (forall serial,
        actions (events (Reconcile r req)) = [Call_joinReplicaInstance serial] ->
        exists resources instancesStatus labelled joined,
          reachesGate r req resources instancesStatus labelled
          /\ generateNodeSerial (api r) labelled = Ok (serial, joined)
          /\ value (Reconcile r req) = joinReplicaInstance (api r) serial joined)
  /\ (actions (events (Reconcile r req)) ≠ [Call_createPrimaryInstance] ->
      (forall serial,
         actions (events (Reconcile r req)) ≠ [Call_joinReplicaInstance serial]) ->
      (value (Reconcile r req)).1 = emptyResult).
Proof.
  destruct (Reconcile_cases r req)
    as [(Hnone & _ & _ & Hempty)
       | (resources & instancesStatus & labelled & Hgate & Hrun)].
  { rewrite Hnone. split; [discriminate |]. split; [discriminate | done]. }
  rewrite Hrun.
  destruct (SatisfiedExpectations r labelled (clock (api r)));
    cbn [events fst value snd]; rewrite actions_gatePrefix.
  2: { split; [discriminate |]. split; [discriminate | done]. }
  destruct (SelectorFacts.ReconcilePods_requeue r req labelled (pods resources)
              instancesStatus) as (Hcreate & Hjoin & Hother).
  split; [| split].
  - intros Hact. exists resources, instancesStatus, labelled. auto.
  - intros serial Hact. destruct (Hjoin serial Hact) as (joined & Hserial & Hvalue).
    by exists resources, instancesStatus, labelled, joined.
  - exact Hother.
Qed.

Lemma requeue_only_by_delegation_witness :
  value (Reconcile (Samples.reconciler MoreSamples.requeueing) Samples.request)
  = ({| Requeue := true; RequeueAfter := 1 |}, None).
Proof.
  destruct (proj1 (requeue_only_by_delegation
                     (Samples.reconciler MoreSamples.requeueing) Samples.request)
              eq_refl)
    as (resources & instancesStatus & labelled & _ & ->).
  reflexivity.
Defined.

(** X12. A failure to fetch stops the invocation at once, with an
    error that says what could not be fetched: the Cluster (unless it is
    not found), its namespace (even when it is not found), or the
    snapshot, whose error is logged and returned as it is. *)
Theorem fetch_failures_are_returned r req :
  (forall err,
     GetCluster (api r) req = Err err -> IsNotFound err = false ->
     Reconcile r req
     = ([CallGetCluster req],
        (emptyResult, Some (WrapError "cannot get the managed resource" err))))
  /\ (forall cluster err,
        GetCluster (api r) req = Ok cluster ->
        GetNamespace (api r) (ReqNamespace req) = Err err ->
        Reconcile r req
        = ([CallGetCluster req; CallGetNamespace (ReqNamespace req)],
           (emptyResult,
            Some (WrapError "cannot get the containing namespace" err))))
  /\ (forall cluster namespace err,
        GetCluster (api r) req = Ok cluster ->
        GetNamespace (api r) (ReqNamespace req) = Ok namespace ->
        IsZero (DeletionTimestamp namespace) = true ->
        getManagedResources (api r) cluster = Err err ->
        Reconcile r req
        = (preamble req ++ [LogError "Cannot extract the list of managed resources"],
           (emptyResult, Some err))).
Proof.
  split; [| split].
  - intros err Hget Hreal. unfold Reconcile. cbn. rewrite Hget. cbn. by rewrite Hreal.
  - intros cluster err Hget Hns. unfold Reconcile. cbn. rewrite Hget. cbn.
    by rewrite Hns.
  - intros cluster ns err Hget Hns Hlive Hres. unfold Reconcile. cbn.
    rewrite Hget. cbn. rewrite Hns. cbn. rewrite Hlive. cbn. by rewrite Hres.
Qed.

Lemma fetch_failures_are_returned_witness :
  Reconcile (Samples.reconciler
               (Samples.platform (Ok Samples.healthy) (Err Samples.notFound)
                  Samples.noResources 0 Samples.succeeds))
            Samples.request
  = ([CallGetCluster Samples.request; CallGetNamespace "default"],
     (emptyResult,
      Some (WrapError "cannot get the containing namespace" Samples.notFound))).
Proof.
  apply (proj1 (proj2 (fetch_failures_are_returned
                         (Samples.reconciler
                            (Samples.platform (Ok Samples.healthy) (Err Samples.notFound)
                               Samples.noResources 0 Samples.succeeds))
                         Samples.request)) Samples.healthy Samples.notFound);
    reflexivity.
Defined.

(** X13. Between the status update and the expectations gate, the
    first collaborator that fails ends the invocation with an error
    that names the failed step and wraps its cause; the steps after it,
    the gate and the selector do not run. *)
Theorem failing_step_is_named r req cluster resources current :
  statusProjected r req cluster resources current ->
  countRunningJobs (api r) resources <= 0 ->
  (forall err,
     createPostgresClusterObjects (api r) current = Err err ->
     Reconcile r req
     = (preamble req ++ [Call_updateResourceStatus; Call_countRunningJobs;
                         Call_createPostgresClusterObjects],
        (emptyResult, Some (WrapError "cannot create Cluster auxiliary objects" err))))
  /\ (forall prepared,
        createPostgresClusterObjects (api r) current = Ok prepared ->
        (forall err,
           getStatusFromInstances (api r) (pods resources) = Err err ->
           Reconcile r req
           = (preamble req ++ [Call_updateResourceStatus; Call_countRunningJobs;
                               Call_createPostgresClusterObjects;
                               Call_getStatusFromInstances],
              (emptyResult, Some (WrapError "cannot get status from instances" err))))
        /\ (forall instancesStatus,
              getStatusFromInstances (api r) (pods resources) = Ok instancesStatus ->
              (forall err,
                 updateTargetPrimaryFromPods (api r) prepared instancesStatus = Err err ->
                 Reconcile r req
                 = (preamble req ++ [Call_updateResourceStatus; Call_countRunningJobs;
                                     Call_createPostgresClusterObjects;
                                     Call_getStatusFromInstances;
                                     Call_updateTargetPrimaryFromPods],
                    (emptyResult,
                     Some (WrapError "cannot update target primary from pods" err))))
              /\ (forall elected err,
                    updateTargetPrimaryFromPods (api r) prepared instancesStatus
                    = Ok elected ->
                    updateLabelsOnPods (api r) elected (pods resources) = Err err ->
                    Reconcile r req
                    = (preamble req ++ [Call_updateResourceStatus; Call_countRunningJobs;
                                        Call_createPostgresClusterObjects;
                                        Call_getStatusFromInstances;
                                        Call_updateTargetPrimaryFromPods;
                                        Call_updateLabelsOnPods],
                       (emptyResult,
                        Some (WrapError "cannot update labels on pods" err)))))).
Proof.
  intros ((Hget & (ns & Hns & Hlive) & Hres) & Hsw & Hup) Hjobs.
  apply Z.ltb_ge in Hjobs.
  unfold Reconcile. cbn. rewrite Hget, Hns. cbn. rewrite Hlive. cbn.
  rewrite Hres. cbn. rewrite Hsw. cbn. rewrite Hup. cbn. rewrite Hjobs. cbn.
  split.
  { intros err ->. reflexivity. }
  intros prepared ->. cbn. split.
  { intros err ->. reflexivity. }
  intros instancesStatus ->. cbn. split.
  { intros err ->. reflexivity. }
  intros elected err -> ->. reflexivity.
Qed.

Lemma failing_step_is_named_witness :
  value (Reconcile (Samples.reconciler MoreSamples.unreachableInstances) Samples.request)
  = (emptyResult,
     Some (WrapError "cannot get status from instances" Samples.deadline)).
Proof.
  pose proof (failing_step_is_named (Samples.reconciler MoreSamples.unreachableInstances)
                Samples.request Samples.growing Samples.noResources Samples.growing)
    as Hnamed.
  destruct Hnamed as (_ & Hlater).
  - repeat split; try reflexivity. exists Samples.liveNamespace. split; reflexivity.
  - by vm_compute.
  - destruct (Hlater Samples.growing eq_refl) as (Hreports & _).
    by rewrite (Hreports Samples.deadline eq_refl).
Defined.

Lemma open_gate_hands_over_to_the_selector_witness :
  value (Reconcile (Samples.reconciler (Samples.steady Samples.bootstrapping))
                   Samples.request)
  = value (ReconcilePods (Samples.reconciler (Samples.steady Samples.bootstrapping))
             Samples.request Samples.bootstrapping [] []).
Proof.
  rewrite (open_gate_hands_over_to_the_selector _ _ Samples.noResources []
             Samples.bootstrapping).
  - reflexivity.
  - exists Samples.bootstrapping, Samples.bootstrapping, Samples.bootstrapping,
      Samples.bootstrapping.
    repeat split; try reflexivity; try (by vm_compute).
    exists Samples.liveNamespace. split; reflexivity.
  - by vm_compute.
Defined.

End LoopFacts.

(** ** The field indexers and the set-up *)

Module SetupFacts.
Import Controllers Setup.

Section Index.
Variable apiGVString : string.
Variable ClusterKind : string.

(** The controlling owner is the first reference marked as
    controller. *)
Lemma GetControllerOf_first refs owner :
  GetControllerOf refs = Some owner
  <-> exists before after,
        refs = before ++ owner :: after
        /\ Forall (fun ref => Controller ref ≠ Some true) before
        /\ Controller owner = Some true.
Proof.
  induction refs as [| ref refs IH]; cbn.
  - split; [discriminate |]. intros (before & after & Habs & _).
    by destruct before.
  - destruct (Controller ref) as [[|] |] eqn:Hctl.
    + split.
      * intros [= <-]. exists [], refs. by repeat split.
      * intros ([| first before] & after & Hrefs & Hbefore & Howner).
        -- by injection Hrefs as ->.
        -- injection Hrefs as -> _. by apply Forall_cons_1 in Hbefore as [? _].
    + rewrite IH. split.
      * intros (before & after & -> & Hbefore & Howner).
        exists (ref :: before), after. repeat split; [| done].
        constructor; [congruence | done].
      * intros ([| first before] & after & Hrefs & Hbefore & Howner).
        -- injection Hrefs as -> _. congruence.
        -- injection Hrefs as -> ->. apply Forall_cons_1 in Hbefore as [_ ?].
           by exists before, after.
    + rewrite IH. split.
      * intros (before & after & -> & Hbefore & Howner).
        exists (ref :: before), after. repeat split; [| done].
        constructor; [congruence | done].
      * intros ([| first before] & after & Hrefs & Hbefore & Howner).
        -- injection Hrefs as -> _. congruence.
        -- injection Hrefs as -> ->. apply Forall_cons_1 in Hbefore as [_ ?].
           by exists before, after.
Qed.

(** X14. An object is indexed under a name exactly when the first of
    its owner references that is marked as controller is a Cluster of
    this API version with that name; it is indexed under at most one
    name. Owners that are not the controller do not count. *)
Theorem indexed_by_the_controlling_cluster refs :
  (forall name,
     ownerIndex apiGVString ClusterKind refs = [name]
     <-> exists before owner after,
           refs = before ++ owner :: after
           /\ Forall (fun ref => Controller ref ≠ Some true) before
           /\ Controller owner = Some true
           /\ APIVersion owner = apiGVString
           /\ Kind owner = ClusterKind
           /\ OwnerName owner = name)
  /\ (length (ownerIndex apiGVString ClusterKind refs) <= 1)%nat.
Proof.
  unfold ownerIndex. split.
  - intros name.
    destruct (GetControllerOf refs) as [owner |] eqn:Hctl.
    + apply GetControllerOf_first in Hctl as (before & after & -> & Hbefore & Howner).
      destruct (String.eqb_spec (APIVersion owner) apiGVString) as [Hapi | Hapi],
               (String.eqb_spec (Kind owner) ClusterKind) as [Hkind | Hkind]; cbn.
      * split.
        -- intros [= <-]. by exists before, owner, after.
        -- intros (before' & owner' & after' & Hrefs & Hbefore' & Howner' & _ & _ & <-).
           assert (GetControllerOf (before ++ owner :: after) = Some owner) as Hfirst
               by (apply GetControllerOf_first; by exists before, after).
           assert (GetControllerOf (before ++ owner :: after) = Some owner') as Hfirst'
               by (rewrite Hrefs; apply GetControllerOf_first; by exists before', after').
           congruence.
      * split; [discriminate |].
        intros (before' & owner' & after' & Hrefs & Hbefore' & Howner' & _ & Hk & _).
        assert (GetControllerOf (before ++ owner :: after) = Some owner) as Hfirst
            by (apply GetControllerOf_first; by exists before, after).
        assert (GetControllerOf (before ++ owner :: after) = Some owner') as Hfirst'
            by (rewrite Hrefs; apply GetControllerOf_first; by exists before', after').
        congruence.
      * split; [discriminate |].
        intros (before' & owner' & after' & Hrefs & Hbefore' & Howner' & Ha & _ & _).
        assert (GetControllerOf (before ++ owner :: after) = Some owner) as Hfirst
            by (apply GetControllerOf_first; by exists before, after).
        assert (GetControllerOf (before ++ owner :: after) = Some owner') as Hfirst'
            by (rewrite Hrefs; apply GetControllerOf_first; by exists before', after').
        congruence.
      * split; [discriminate |].
        intros (before' & owner' & after' & Hrefs & Hbefore' & Howner' & Ha & _ & _).
        assert (GetControllerOf (before ++ owner :: after) = Some owner) as Hfirst
            by (apply GetControllerOf_first; by exists before, after).
        assert (GetControllerOf (before ++ owner :: after) = Some owner') as Hfirst'
            by (rewrite Hrefs; apply GetControllerOf_first; by exists before', after').
        congruence.
    + split; [discriminate |].
      intros (before & owner & after & Hrefs & Hbefore & Howner & _).
      assert (GetControllerOf refs = Some owner) as Hfirst
          by (apply GetControllerOf_first; by exists before, after).
      congruence.
  - destruct (GetControllerOf refs) as [owner |]; [| cbn; lia].
    destruct (_ || _); cbn; lia.
Qed.

End Index.

(** X15. The set-up registers the index of pods, then of claims, then
    of jobs, and then builds the controller. It stops at the first of
    these that fails and returns its error as it is: nothing after the
    failed registration is attempted. When the three indexes are
    registered it returns what building the controller returns. The
    reconciler keeps its collaborators. *)
Theorem setup_stops_at_the_first_failure horizon r mgr :
  (forall err,
     IndexField mgr PodType podOwnerKey = Some err ->
     events (SetupWithManager horizon r mgr) = [Call_IndexField PodType podOwnerKey]
     /\ (value (SetupWithManager horizon r mgr)).2 = Some err)
  /\ (forall err,
        IndexField mgr PodType podOwnerKey = None ->
        IndexField mgr ClaimType pvcOwnerKey = Some err ->
        events (SetupWithManager horizon r mgr)
        = [Call_IndexField PodType podOwnerKey; Call_IndexField ClaimType pvcOwnerKey]
        /\ (value (SetupWithManager horizon r mgr)).2 = Some err)
  /\ (forall err,
        IndexField mgr PodType podOwnerKey = None ->
        IndexField mgr ClaimType pvcOwnerKey = None ->
        IndexField mgr JobType jobOwnerKey = Some err ->
        events (SetupWithManager horizon r mgr)
        = [Call_IndexField PodType podOwnerKey; Call_IndexField ClaimType pvcOwnerKey;
           Call_IndexField JobType jobOwnerKey]
        /\ (value (SetupWithManager horizon r mgr)).2 = Some err)
  /\ (IndexField mgr PodType podOwnerKey = None ->
      IndexField mgr ClaimType pvcOwnerKey = None ->
      IndexField mgr JobType jobOwnerKey = None ->
      events (SetupWithManager horizon r mgr)
      = [Call_IndexField PodType podOwnerKey; Call_IndexField ClaimType pvcOwnerKey;
         Call_IndexField JobType jobOwnerKey; Call_Complete]
      /\ (value (SetupWithManager horizon r mgr)).2 = Complete mgr)
  /\ api (value (SetupWithManager horizon r mgr)).1 = api r.
Proof.
  unfold SetupWithManager. cbn.
  split; [| split; [| split; [| split]]].
  - by intros err ->.
  - by intros err -> ->.
  - by intros err -> -> ->.
  - by intros -> -> ->.
  - by destruct (IndexField mgr PodType podOwnerKey),
                (IndexField mgr ClaimType pvcOwnerKey),
                (IndexField mgr JobType jobOwnerKey).
Qed.

Lemma setup_stops_at_the_first_failure_witness :
  events (SetupWithManager 300 (Samples.reconciler (Samples.steady Samples.healthy))
            brokenManager)
  = [Call_IndexField PodType podOwnerKey; Call_IndexField ClaimType pvcOwnerKey]
  /\ (value (SetupWithManager 300 (Samples.reconciler (Samples.steady Samples.healthy))
               brokenManager)).2
     = Some (ErrorString "indexer conflict").
Proof.
  apply (proj1 (proj2 (setup_stops_at_the_first_failure 300
                         (Samples.reconciler (Samples.steady Samples.healthy))
                         brokenManager))
           (ErrorString "indexer conflict"));
    reflexivity.
Defined.

End SetupFacts.

(** ** The archiver, path by path *)

Module ArchiverFacts.
Import WalArchive WalSamples.

#[local] Arguments optionsOf : simpl never.

Section Run.
Variable w : Collaborators.
Variables namespace clusterName walName : string.

(** Every run either never starts the tool, or starts it once, with
    the options computed for the fetched Cluster and the probed version
    and with the environment of the cache, and returns what the tool
    run yields. *)
Lemma run_cases :
  (filter (fun e => isExec e) (events (run w namespace clusterName walName)) = []
   /\ exists outcome, value (run w namespace clusterName walName) = Returns outcome)
  \/ (exists cluster configuration options env,
        NewControllerRuntimeClient w = None
        /\ GetCluster w namespace clusterName = Ok cluster
        /\ Backup cluster ≫= BarmanObjectStore = Some configuration
        /\ optionsOf configuration clusterName walName
             (GetBarmanCloudVersion w barmanCloudWalArchiveName).1 = (options, None)
        /\ GetEnv w (Namespace cluster) configuration = Ok env
        /\ filter (fun e => isExec e) (events (run w namespace clusterName walName))
           = [Exec barmanCloudWalArchiveName options env]
        /\ value (run w namespace clusterName walName)
           = Returns
               match RunStreaming w barmanCloudWalArchiveName options env with
               | Some err =>
                   Some (WrapError
                           ("unexpected failure invoking " +:+ barmanCloudWalArchiveName)
                           err)
               | None => None
               end).
Proof.
  unfold run. cbn.
  destruct (NewControllerRuntimeClient w) as [broken |] eqn:Hclient; cbn.
  { left. split; [reflexivity | by eexists]. }
  destruct (GetCluster w namespace clusterName) as [cluster | err] eqn:Hget; cbn.
  2: { left. split; [reflexivity | by eexists]. }
  unfold barmanCloudWalArchiveOptions.
  destruct (Backup cluster) as [[[configuration |]] |] eqn:Hbackup; cbn.
  2, 3: left; split; [reflexivity | by eexists].
  destruct (GetBarmanCloudVersion w barmanCloudWalArchiveName) as [version probe]
    eqn:Hprobe.
  destruct (optionsOf configuration clusterName walName version)
    as [options [refused |]] eqn:Hoptions.
  { left. destruct probe; cbn; rewrite ?Hoptions; cbn;
      (split; [reflexivity | by eexists]). }
  destruct (GetEnv w (Namespace cluster) configuration) as [env | err] eqn:Henv.
  2: { left. destruct probe; cbn; rewrite ?Hoptions, ?Henv; cbn; rewrite ?Hoptions, ?Henv;
         (split; [reflexivity | by eexists]). }
  right. exists cluster, configuration, options, env.
  split; [done |]. split; [done |]. split; [by rewrite Hbackup |].
  split; [done |]. split; [done |].
  destruct (RunStreaming w barmanCloudWalArchiveName options env) as [failure |]
    eqn:Htool;
    destruct probe; cbn; rewrite ?Hoptions, ?Henv, ?Htool; cbn;
    rewrite ?Hoptions, ?Henv, ?Htool; by split.
Qed.

End Run.

(** X16. [run] never panics: the options are only computed once the
    backup and its object store are known to be configured. *)
Theorem run_never_panics w namespace clusterName walName :
  exists outcome, value (run w namespace clusterName walName) = Returns outcome.
Proof.
  destruct (run_cases w namespace clusterName walName)
    as [(_ & Hreturns) | (cluster & configuration & options & env & Hexec)];
    [done |].
  destruct Hexec as (_ & _ & _ & _ & _ & _ & ->). by eexists.
Qed.

(** X17. The tool is started at most once per run, and only with the
    client created, the Cluster fetched, an object store configured,
    the options accepted and the environment read: it is given exactly
    those options and that environment, its failure is returned
    wrapped, and its success is the success of the run. *)
Theorem tool_runs_once_with_the_computed_options w namespace clusterName walName
  command options env :
  Exec command options env ∈ events (run w namespace clusterName walName) ->
  command = barmanCloudWalArchiveName
  /\ filter (fun e => isExec e) (events (run w namespace clusterName walName))
     = [Exec command options env]
  /\ (exists cluster configuration,
        NewControllerRuntimeClient w = None
        /\ GetCluster w namespace clusterName = Ok cluster
        /\ Backup cluster ≫= BarmanObjectStore = Some configuration
        /\ optionsOf configuration clusterName walName
             (GetBarmanCloudVersion w barmanCloudWalArchiveName).1 = (options, None)
        /\ GetEnv w (Namespace cluster) configuration = Ok env)
  /\ value (run w namespace clusterName walName)
     = Returns
         match RunStreaming w command options env with
         | Some err =>
             Some (WrapError ("unexpected failure invoking " +:+ barmanCloudWalArchiveName)
                     err)
         | None => None
         end.
Proof.
  intros Hin.
  assert (Exec command options env
          ∈ filter (fun e => isExec e) (events (run w namespace clusterName walName)))
    as Hexec by (apply list_elem_of_filter; by split).
  destruct (run_cases w namespace clusterName walName)
    as [(Hnone & _) | (cluster & configuration & options' & env' & Hrun)].
  { rewrite Hnone in Hexec. by apply elem_of_nil in Hexec. }
  destruct Hrun as (Hclient & Hget & Hstore & Hoptions & Henv & Honce & Hvalue).
  rewrite Honce in Hexec.
  apply elem_of_cons in Hexec as [[= -> -> ->] | Habs];
    [| by apply elem_of_nil in Habs].
  split; [done |]. split; [done |]. split; [| done].
  by exists cluster, configuration.
Qed.

Lemma tool_runs_once_with_the_computed_options_witness :
  value (run (s3Installation (Some (release 2 13 0), None) None)
           "default" "cluster-example" "000000010000000000000001")
  = Returns None.
Proof.
  refine (proj2 (proj2 (proj2
            (tool_runs_once_with_the_computed_options
               (s3Installation (Some (release 2 13 0), None) None)
               "default" "cluster-example" "000000010000000000000001"
               barmanCloudWalArchiveName
               ["--bzip2"; "-e"; "AES256"; "--endpoint-url"; "https://minio.example.com";
                "--cloud-provider"; "aws-s3"; "s3://backups/"; "pg-main";
                "000000010000000000000001"]
               ["AWS_ACCESS_KEY_ID=key"] _)))).
  vm_compute. set_solver.
Defined.

(** X18. Without a backup, or without an object store in it, the run
    is a success that does nothing: it probes no version, reads no
    environment and starts no tool. *)
Theorem unconfigured_backup_is_skipped w namespace clusterName walName cluster :
  NewControllerRuntimeClient w = None ->
  GetCluster w namespace clusterName = Ok cluster ->
  Backup cluster = None
  \/ (exists backup, Backup cluster = Some backup /\ BarmanObjectStore backup = None) ->
  run w namespace clusterName walName
  = ([Call_NewControllerRuntimeClient; Call_GetCluster namespace clusterName;
      LogInfo "Backup not configured, skip WAL archiving"],
     Returns None).
Proof.
  intros Hclient Hget Hnone. unfold run. cbn. rewrite Hclient. cbn.
  rewrite Hget. cbn.
  destruct Hnone as [-> | (backup & -> & Hstore)]; cbn; [done |].
  by rewrite Hstore.
Qed.

Lemma unconfigured_backup_is_skipped_witness :
  value (run plainInstallation "default" "cluster-example" "000000010000000000000001")
  = Returns None.
Proof.
  rewrite (unconfigured_backup_is_skipped plainInstallation "default" "cluster-example"
             "000000010000000000000001" plainCluster); try reflexivity.
  by left.
Defined.

(** X19. A version probe that fails is only logged: the run returns
    what it returns with the same version and no probe error, and
    starts the tool in the same way. *)
Theorem failed_probe_is_only_logged w namespace clusterName walName version err :
  value (run (withProbe w (version, Some err)) namespace clusterName walName)
  = value (run (withProbe w (version, None)) namespace clusterName walName)
  /\ filter (fun e => isExec e)
       (events (run (withProbe w (version, Some err)) namespace clusterName walName))
     = filter (fun e => isExec e)
         (events (run (withProbe w (version, None)) namespace clusterName walName)).
Proof.
  unfold run, withProbe. cbn.
  destruct (NewControllerRuntimeClient w); cbn; [done |].
  destruct (GetCluster w namespace clusterName) as [cluster |]; cbn; [| done].
  destruct (Backup cluster ≫= BarmanObjectStore) as [configuration |]; cbn; [| done].
  destruct (barmanCloudWalArchiveOptions cluster clusterName walName version)
    as [[options [refused |]] |]; cbn; try done.
  destruct (GetEnv w (Namespace cluster) configuration) as [env |]; cbn; [| done].
  by destruct (RunStreaming w barmanCloudWalArchiveName options env).
Qed.

Section Options.
Variable configuration : BarmanObjectStoreConfiguration.
Variables clusterName walName : string.

(** The server name of the options: the configured one, or else the
    name of the Cluster. *)
Lemma optionsOf_accepted version :
  (optionsOf configuration clusterName walName version).2 = None ->
  exists flags,
    (optionsOf configuration clusterName walName version).1
    = flags ++ [DestinationPath configuration;
                if negb (String.length (ServerName configuration) =? 0)%nat
                then ServerName configuration else clusterName;
                walName]
    /\ (length flags <= 9)%nat.
Proof.
  unfold optionsOf.
  destruct (Wal configuration) as [[compression encryption] |]; cbn;
    repeat match goal with
           | |- context [if ?b then _ else _] => destruct b eqn:?; cbn
           | |- context [match ?o with Some _ => _ | None => _ end] =>
               destruct o eqn:?; cbn
           end;
    intros Hok; try discriminate;
    (match goal with
     | |- ∃ flags, ?l = _ ∧ _ => exists (take (length l - 3) l)
     end;
     split; [reflexivity | cbn; lia]).
Qed.

End Options.

(** X20. The options are refused exactly when Azure credentials are
    set and the version is unknown or below 2.13; whatever else the
    store says, and whatever the version without Azure credentials,
    they are accepted. *)
Theorem options_refused_only_for_azure configuration clusterName walName version :
  (exists err, (optionsOf configuration clusterName walName version).2 = Some err)
  <-> (exists credentials, Azure configuration = Some credentials)
      /\ barmanCloudVersionGE213 version = false.
Proof.
  unfold optionsOf.
  destruct (barmanCloudVersionGE213 version), (Azure configuration) as [azure |],
           (S3 configuration); cbn; split;
    try (intros [err Herr]; discriminate);
    try (intros [[azure' Hazure] Hold]; discriminate);
    try (intros _; by eexists);
    try (intros _; split; [by eexists | done]).
Qed.

(** X21. Accepted options end with the destination path, the server
    name and the WAL file name, in this order, after at most nine flag
    words; the server name is the configured one when there is one and
    the name of the Cluster otherwise. *)
Theorem accepted_options_end_with_the_wal configuration clusterName walName version :
  (optionsOf configuration clusterName walName version).2 = None ->
  exists flags,
    (optionsOf configuration clusterName walName version).1
    = flags ++ [DestinationPath configuration;
                if negb (String.length (ServerName configuration) =? 0)%nat
                then ServerName configuration else clusterName;
                walName]
    /\ (length flags <= 9)%nat
    /\ last (optionsOf configuration clusterName walName version).1 = Some walName.
Proof.
  intros Hok.
  destruct (optionsOf_accepted configuration clusterName walName version Hok)
    as (flags & Hshape & Hlen).
  exists flags. split; [done |]. split; [done |].
  rewrite Hshape.
  change [DestinationPath configuration;
          if negb (String.length (ServerName configuration) =? 0)%nat
          then ServerName configuration else clusterName; walName]
    with ([DestinationPath configuration;
           if negb (String.length (ServerName configuration) =? 0)%nat
           then ServerName configuration else clusterName] ++ [walName]).
  rewrite app_assoc. apply last_snoc.
Qed.

Lemma accepted_options_end_with_the_wal_witness :
  (optionsOf s3Store "cluster-example" "000000010000000000000001"
     (Some (release 2 13 0))).1
  = ["--bzip2"; "-e"; "AES256"; "--endpoint-url"; "https://minio.example.com";
     "--cloud-provider"; "aws-s3"; "s3://backups/"; "pg-main";
     "000000010000000000000001"]
  /\ exists flags,
       (optionsOf s3Store "cluster-example" "000000010000000000000001"
          (Some (release 2 13 0))).1
       = flags ++ ["s3://backups/"; "pg-main"; "000000010000000000000001"].
Proof.
  split; [reflexivity |].
  destruct (accepted_options_end_with_the_wal s3Store "cluster-example"
              "000000010000000000000001" (Some (release 2 13 0)) eq_refl)
    as (flags & Hshape & _).
  by exists flags.
Defined.

(** X22. Below 2.13, or with an unknown version, S3 credentials change
    nothing: the options are those of the same store without them, with
    no cloud-provider flag and no error of their own. Without any
    credentials the options do not depend on the version at all. *)
Theorem old_tool_ignores_s3_credentials configuration clusterName walName :
  (forall version,
     barmanCloudVersionGE213 version = false ->
     optionsOf configuration clusterName walName version
     = optionsOf (withoutS3 configuration) clusterName walName version)
  /\ (S3 configuration = None -> Azure configuration = None ->
      forall version version',
        optionsOf configuration clusterName walName version
        = optionsOf configuration clusterName walName version').
Proof.
  split.
  - intros version Hold. unfold optionsOf, withoutS3. cbn. by rewrite Hold.
  - intros Hs3 Hazure version version'. unfold optionsOf. rewrite Hs3, Hazure.
    by destruct (barmanCloudVersionGE213 version), (barmanCloudVersionGE213 version').
Qed.

(** X23. The versions that pass the threshold: no unknown version; a
    release exactly when its major and minor numbers are at least 2 and
    13 in this order; and no pre-release of 2.13.0. *)
Theorem versions_that_pass_the_threshold :
  barmanCloudVersionGE213 None = false
  /\ (forall v,
        Semver.Pre v = [] ->
        barmanCloudVersionGE213 (Some v) = true
        <-> (2 < Semver.Major v)%N
            \/ (Semver.Major v = 2%N /\ (13 <= Semver.Minor v)%N))
  /\ (forall v,
        Semver.Major v = 2%N -> Semver.Minor v = 13%N -> Semver.Patch v = 0%N ->
        Semver.Pre v ≠ [] ->
        barmanCloudVersionGE213 (Some v) = false).
Proof.
  split; [reflexivity |]. split.
  - intros v Hrelease. cbn. rewrite WalArchiveFacts.GE_2_13_numbers. split.
    + intros [? | [[? ?] | (? & ? & _)]]; [by left | right; lia | right; lia].
    + intros [? | [? Hminor]]; [by left |].
      destruct (N.eq_dec (Semver.Minor v) 13%N); [| right; left; lia].
      right. right. auto.
  - intros v Hmajor Hminor Hpatch Hpre. cbn.
    destruct (Semver.GE v version213) eqn:Hge; [| done].
    apply WalArchiveFacts.GE_2_13_numbers in Hge
      as [? | [[_ ?] | (_ & _ & [? | ?])]]; try lia. done.
Qed.

End ArchiverFacts.
